(** * Bank customer-support prompt chain (prompt-chain.js)

    A shallow embedding of [callTogetherAI], [runPromptChain] and [main],
    and the properties of the five-stage chain that the specification
    states about them.

    Conventions of the embedding.
    - A JavaScript string is the list of its UTF-16 code units ([str]).
    - [async]/[await] code is sequential: every awaited promise settles,
      either fulfilled or rejected.  A call that never settles is outside
      the model.
    - Effects are explicit: a computation takes the machine state (number
      of [fetch] calls issued, and the chronological list of observable
      events) and gives back either a thrown value or a result, with the
      new state. *)

From Stdlib Require Import List String Ascii NArith ZArith QArith Bool Lia.
From Stdlib Require Import DecimalString.
Import ListNotations.

(** ** Strings *)

Module Str.

(** A JavaScript string: its UTF-16 code units. *)
Definition str := list N.

(** The code units of an ASCII literal of the source. *)
Definition lit (s : string) : str :=
  map N_of_ascii (list_ascii_of_string s).

(** Characters the templates need and a Rocq literal cannot hold as is. *)
Definition nl : str := [10%N].

(** A constant block of template text: its lines, joined by line feeds. *)
Definition text (lines : list string) : str :=
  lit (String.concat (String "010"%char EmptyString) lines).
Definition dquote : str := [34%N].
Definition colon : N := 58%N.

(** [String.prototype.repeat] for a one-unit string. *)
Definition repeat_unit (c : N) (count : nat) : str := repeat c count.

(** String of a non-negative integer ([`${n}`]). *)
Definition of_N (n : N) : str := lit (NilZero.string_of_uint (N.to_uint n)).

Definition eqb (a b : str) : bool :=
  if list_eq_dec N.eq_dec a b then true else false.

(** [WhiteSpace] and [LineTerminator] code points of ECMAScript, the ones
    [String.prototype.trim] removes. *)
Definition is_white_space (c : N) : bool :=
  ((9 <=? c) && (c <=? 13) || (c =? 32) || (c =? 160) || (c =? 5760)
   || (8192 <=? c) && (c <=? 8202) || (c =? 8232) || (c =? 8233)
   || (c =? 8239) || (c =? 8287) || (c =? 12288) || (c =? 65279))%N.

Fixpoint trimStart (s : str) : str :=
  match s with
  | c :: s' => if is_white_space c then trimStart s' else s
  | [] => []
  end.

Definition trimEnd (s : str) : str := rev (trimStart (rev s)).

(** [String.prototype.trim]. *)
Definition trim (s : str) : str := trimEnd (trimStart s).

(** [s.split(sep)] for a separator of one code unit: the maximal pieces
    without [sep], in order.  The result always has a first element. *)
Fixpoint split (sep : N) (s : str) : list str :=
  match s with
  | [] => [[]]
  | c :: s' =>
      if (c =? sep)%N then [] :: split sep s'
      else match split sep s' with
           | piece :: pieces => (c :: piece) :: pieces
           | [] => [[c]]
           end
  end.

(** [p] contains [s] verbatim, as a contiguous substring. *)
Definition contains (s p : str) : Prop :=
  exists before after, p = before ++ s ++ after.

(** [s] is a prefix of [p], and [s] occurs in [p], decided. *)
Fixpoint prefixb (s p : str) : bool :=
  match s, p with
  | [], _ => true
  | c :: s', d :: p' => (c =? d)%N && prefixb s' p'
  | _ :: _, [] => false
  end.

Fixpoint containsb (s p : str) : bool :=
  prefixb s p ||
  match p with
  | [] => false
  | _ :: p' => containsb s p'
  end.

(** The first and the last code unit of [s], if any, are not white space. *)
Definition trimmed (s : str) : Prop :=
  (forall c s', s = c :: s' -> is_white_space c = false) /\
  (forall c s', s = s' ++ [c] -> is_white_space c = false).

End Str.
Import Str.

Local Close Scope Q_scope.
Local Open Scope string_scope.
Local Open Scope list_scope.

(** ** Stage 4: the category name *)

(** [selectedCategory.split(':')[0].trim()] (line 129).  [split] never
    returns an empty array, so element 0 always exists, see
    [split_not_nil]. *)
Definition categoryName (selectedCategory : str) : str :=
  trim (hd [] (split colon selectedCategory)).

(** ** Values exchanged with the completion service *)

(** A value produced by [response.json()]. *)
#[warnings="-register-all"]
Inductive json : Type :=
| JNull
| JBool (b : bool)
| JNum (q : Q)
| JStr (s : str)
| JArr (items : list json)
| JObj (fields : list (str * json)).

(** A JavaScript value read from such data: [None] is [undefined]. *)
Definition jsval := option json.

(** A thrown [Error] object, by its [name] and [message]. *)
Record js_error : Type := JsError { err_name : str; err_message : str }.

(** A property key: a name ([data.choices]) or an index ([choices[0]]). *)
Inductive prop_key : Type :=
| PName (name : str)
| PIndex (i : N).

Definition key_text (k : prop_key) : str :=
  match k with
  | PName name => name
  | PIndex i => of_N i
  end.

Fixpoint own_property (fields : list (str * json)) (name : str) : jsval :=
  match fields with
  | [] => None
  | (k, v) :: fields' => if Str.eqb k name then Some v else own_property fields' name
  end.

(** The body the source posts, before [JSON.stringify]. *)
Record message : Type := Message { role : str; content : str }.

Record request : Type := Request {
  url : str;
  method : str;
  header_Authorization : str;
  header_Content_Type : str;
  body_model : str;
  body_messages : list message;
  body_temperature : Q;
  body_max_tokens : N;
  body_top_p : Q;
  body_stop : list str
}.

(** What the promise of [response.json()] settles to. *)
Record response : Type := Response {
  ok : bool;
  status : N;
  json_body : js_error + json
}.

(** What the promise of [fetch] settles to. *)
Inductive fetch_outcome : Type :=
| FetchRejected (e : js_error)
| FetchFulfilled (r : response).

(** Everything outside the program: the process environment, the service
    (its answer to the [i]-th [fetch] of the process may depend on [i] and
    on the request), and the two engine functions whose text the program
    prints but does not decide. *)
Record world : Type := World {
  env_TOGETHER_API_KEY : option str;
  respond : nat -> request -> fetch_outcome;
  JSON_stringify : json -> str;
  type_error_message : jsval -> prop_key -> str
}.

(** ** Observable events and the monad of computations *)

Inductive event : Type :=
| EFetch (req : request)
| EConsoleLog (args : list str)
| EConsoleError (args : list str)
| ETimeout (ms : N).

Record state : Type := State { calls : nat; trace : list event }.

Definition initial : state := State 0 [].

Definition M (A : Type) : Type := state -> (js_error + A) * state.

Definition ret {A} (a : A) : M A := fun st => (inr a, st).

Definition throw {A} (e : js_error) : M A := fun st => (inl e, st).

Definition bind {A B} (m : M A) (k : A -> M B) : M B :=
  fun st =>
    match m st with
    | (inr a, st') => k a st'
    | (inl e, st') => (inl e, st')
    end.

(** [try { body } catch (error) { handler error }]. *)
Definition try_catch {A} (body : M A) (handler : js_error -> M A) : M A :=
  fun st =>
    match body st with
    | (inr a, st') => (inr a, st')
    | (inl e, st') => handler e st'
    end.

Declare Scope js_scope.
Delimit Scope js_scope with js.
Notation "x <- m ;; k" := (bind m (fun x => k))
  (at level 100, m at next level, right associativity) : js_scope.
Notation "m ;; k" := (bind m (fun _ => k))
  (at level 100, right associativity) : js_scope.
Local Open Scope js_scope.

Definition emit (ev : event) : M unit :=
  fun st => (inr tt, State (calls st) (trace st ++ [ev])).

Definition console_log (args : list str) : M unit := emit (EConsoleLog args).
Definition console_error (args : list str) : M unit := emit (EConsoleError args).

(** [await new Promise(resolve => setTimeout(resolve, ms))]. *)
Definition sleep (ms : N) : M unit := emit (ETimeout ms).

(** A promise that has settled, awaited. *)
Definition await {A} (settled : js_error + A) : M A :=
  fun st => (settled, st).

(** The requests among the events, in order. *)
Fixpoint fetches (evs : list event) : list request :=
  match evs with
  | [] => []
  | EFetch req :: evs' => req :: fetches evs'
  | _ :: evs' => fetches evs'
  end.

(** The prompt a request carries. *)
Definition prompt_of (req : request) : list str := map content (body_messages req).

(** ** Reading the response *)

(** [v[k]] on parsed JSON data.  Reading a property of [undefined] or
    [null] throws a [TypeError]; a missing property is [undefined].  Only
    data properties are modelled (the program reads [choices], [0],
    [message] and [content]). *)
Definition get (w : world) (v : jsval) (k : prop_key) : js_error + jsval :=
  match v with
  | None | Some JNull =>
      inl (JsError (lit "TypeError") (type_error_message w v k))
  | Some (JBool _) | Some (JNum _) => inr None
  | Some (JStr s) =>
      match k with
      | PIndex i => inr (option_map (fun c => JStr [c]) (nth_error s (N.to_nat i)))
      | PName name =>
          if Str.eqb name (lit "length")
          then inr (Some (JNum (inject_Z (Z.of_nat (List.length s)))))
          else inr None
      end
  | Some (JArr items) =>
      match k with
      | PIndex i => inr (nth_error items (N.to_nat i))
      | PName name =>
          if Str.eqb name (lit "length")
          then inr (Some (JNum (inject_Z (Z.of_nat (List.length items)))))
          else inr None
      end
  | Some (JObj fields) => inr (own_property fields (key_text k))
  end.

(** A chain of property reads [v.k1.k2...], left to right; the first read
    that throws ends it. *)
Definition read_path (w : world) (v : jsval) (path : list prop_key)
    : js_error + jsval :=
  fold_left
    (fun acc k => match acc with inr v' => get w v' k | inl e => inl e end)
    path (inr v).

(** [.choices[0].message.content] (line 59). *)
Definition content_path : list prop_key :=
  [PName (lit "choices"); PIndex 0; PName (lit "message"); PName (lit "content")].

(** [v.trim()]: only a string has the method. *)
Definition call_trim (w : world) (v : jsval) : js_error + str :=
  match v with
  | Some (JStr s) => inr (trim s)
  | _ => inl (JsError (lit "TypeError") (type_error_message w v (PName (lit "trim"))))
  end.

(** ** callTogetherAI (lines 19-64) *)

Definition PLACEHOLDER_KEY : str := lit "YOUR_TOGETHER_API_KEY_HERE".

(** [process.env.TOGETHER_API_KEY || 'YOUR_TOGETHER_API_KEY_HERE']. *)
Definition TOGETHER_API_KEY (w : world) : str :=
  match env_TOGETHER_API_KEY w with
  | Some (c :: key) => c :: key
  | Some [] | None => PLACEHOLDER_KEY
  end.

Definition TOGETHER_API_URL : str := lit "https://api.together.xyz/v1/chat/completions".
Definition MODEL : str := lit "meta-llama/Llama-3-70b-chat-hf".

(** [await fetch(url, init)]: one network round trip. *)
Definition fetch (w : world) (req : request) : M response :=
  fun st =>
    let st' := State (S (calls st)) (trace st ++ [EFetch req]) in
    match respond w (calls st) req with
    | FetchRejected e => (inl e, st')
    | FetchFulfilled r => (inr r, st')
    end.

Definition default_arg {A} (arg : option A) (dflt : A) : A :=
  match arg with Some a => a | None => dflt end.

Definition completion_request (w : world) (prompt : str) (temperature : Q)
    (maxTokens : N) : request :=
  {| url := TOGETHER_API_URL;
     method := lit "POST";
     header_Authorization := lit "Bearer " ++ TOGETHER_API_KEY w;
     header_Content_Type := lit "application/json";
     body_model := MODEL;
     body_messages := [ {| role := lit "user"; content := prompt |} ];
     body_temperature := temperature;
     body_max_tokens := maxTokens;
     body_top_p := (9 # 10)%Q;
     body_stop := [lit "<|eot_id|>"; lit "<|end_of_text|>"] |}.

(** [new Error(`Together AI API Error: ${response.status} -
    ${JSON.stringify(errorData)}`)] (line 55). *)
Definition api_error (w : world) (resp : response) (errorData : json) : js_error :=
  JsError (lit "Error")
    (lit "Together AI API Error: " ++ of_N (status resp) ++ lit " - "
     ++ JSON_stringify w errorData).

Definition callTogetherAI (w : world) (prompt : str)
    (temperature : option Q) (maxTokens : option N) : M str :=
  let temperature := default_arg temperature (3 # 10)%Q in
  let maxTokens := default_arg maxTokens 500%N in
  try_catch
    (response <- fetch w (completion_request w prompt temperature maxTokens) ;;
     (if negb (ok response) then
        errorData <- await (json_body response) ;;
        throw (api_error w response errorData)
      else ret tt) ;;
     data <- await (json_body response) ;;
     generated <- await (read_path w (Some data) content_path) ;;
     await (call_trim w generated))
    (fun error =>
       console_error [lit "Error calling Together AI:"; err_message error] ;;
       throw error).

(** ** runPromptChain (lines 72-172) *)

(** The template literals of the five stages, each as a function of the
    variables it interpolates. *)

Definition blank : string := EmptyString.

Definition prompt1 (query : str) : str :=
  text ["Analyze the following customer query and identify the primary intent. What is the customer trying to accomplish or what problem are they reporting?";
          blank;
          "Customer Query: "]
  ++ query
  ++ text [blank;
          blank;
          "Provide a clear, one-sentence summary of the customer's intent. Focus on the underlying need or goal, not just the literal words used."].

Definition prompt2 (intent : str) : str :=
  text ["Based on the customer's intent, suggest 1-3 possible categories that could apply from this list:";
          "- Account Opening";
          "- Billing Issue";
          "- Account Access";
          "- Transaction Inquiry";
          "- Card Services";
          "- Account Statement";
          "- Loan Inquiry";
          "- General Information";
          blank;
          "Customer Intent: "]
  ++ intent
  ++ text [blank;
          blank;
          "List the categories in order of relevance (most relevant first). For each category, provide a brief reason why it might apply."].

Definition prompt3 (intent query categories : str) : str :=
  text ["Review the suggested categories and select the single most appropriate category for this customer query.";
          blank;
          "Customer Intent: "]
  ++ intent
  ++ text [blank;
          "Original Query: "]
  ++ query
  ++ text [blank;
          "Suggested Categories: "]
  ++ categories
  ++ text [blank;
          blank;
          "Choose exactly ONE category from the suggestions and explain your choice in 1-2 sentences. Consider which category would lead to the most effective resolution of the customer's issue.";
          blank;
          "Selected Category:"].

Definition prompt4 (categoryName query : str) : str :=
  text ["Identify any additional details from the customer's query that would be relevant for addressing their request in the "]
  ++ dquote
  ++ categoryName
  ++ dquote
  ++ text [" category.";
          blank;
          "Original Query: "]
  ++ query
  ++ text [blank;
          blank;
          "Extract the following types of information if present:";
          "- Specific amounts (transaction amounts, fees, etc.)";
          "- Dates or time periods";
          "- Account types or numbers (last 4 digits only)";
          "- Card types (credit/debit)";
          "- Transaction descriptions or merchant names";
          "- Any error messages or specific symptoms";
          blank;
          "List each detail found with its type. If no additional details are present, state "]
  ++ dquote
  ++ text ["No additional details provided."]
  ++ dquote.

Definition prompt5 (selectedCategory intent details query : str) : str :=
  text ["Generate a professional, helpful response to the customer based on all the information gathered.";
          blank;
          "Category: "]
  ++ selectedCategory
  ++ text [blank;
          "Customer Intent: "]
  ++ intent
  ++ text [blank;
          "Additional Details: "]
  ++ details
  ++ text [blank;
          "Original Query: "]
  ++ query
  ++ text [blank;
          blank;
          "Your response should:";
          "- Acknowledge the customer's concern";
          "- Provide relevant next steps or information";
          "- Be concise (2-4 sentences)";
          "- Use a friendly, professional tone";
          "- Include any relevant details extracted from their query";
          blank;
          "Response:"].

(** ['='.repeat(80)]. *)
Definition rule (c : N) : str := repeat_unit c 80.

Definition runPromptChain (w : world) (query : str) : M (list str) :=
  console_log [nl ++ rule 61] ;;
  console_log [lit "PROCESSING QUERY:"; query] ;;
  console_log [rule 61] ;;
  let results : list str := [] in
  (* Stage 1: Intent Interpretation *)
  console_log [nl ++ lit "[Stage 1] Intent Interpretation..."] ;;
  intent <- callTogetherAI w (prompt1 query) (Some (3 # 10)%Q) (Some 150%N) ;;
  let results := results ++ [intent] in
  console_log [lit "Intent:"; intent] ;;
  (* Stage 2: Category Mapping *)
  console_log [nl ++ lit "[Stage 2] Category Mapping..."] ;;
  categories <- callTogetherAI w (prompt2 intent) (Some (3 # 10)%Q) (Some 250%N) ;;
  let results := results ++ [categories] in
  console_log [lit "Categories:"; categories] ;;
  (* Stage 3: Category Selection *)
  console_log [nl ++ lit "[Stage 3] Category Selection..."] ;;
  selectedCategory <-
    callTogetherAI w (prompt3 intent query categories) (Some (3 # 10)%Q) (Some 150%N) ;;
  let results := results ++ [selectedCategory] in
  console_log [lit "Selected Category:"; selectedCategory] ;;
  (* Stage 4: Detail Extraction *)
  console_log [nl ++ lit "[Stage 4] Detail Extraction..."] ;;
  let categoryName := categoryName selectedCategory in
  details <- callTogetherAI w (prompt4 categoryName query) (Some (3 # 10)%Q) (Some 200%N) ;;
  let results := results ++ [details] in
  console_log [lit "Details:"; details] ;;
  (* Stage 5: Response Generation *)
  console_log [nl ++ lit "[Stage 5] Response Generation..."] ;;
  response <-
    callTogetherAI w (prompt5 selectedCategory intent details query)
      (Some (5 # 10)%Q) (Some 300%N) ;;
  let results := results ++ [response] in
  console_log [lit "Final Response:"; response] ;;
  console_log [nl ++ rule 61] ;;
  ret results.

(** ** main (lines 177-247) *)

Definition cross_mark : str := [10060%N].
Definition hourglass : str := [9203%N].
Definition check_mark : str := [9989%N].

Definition testQueries : list str :=
  [ lit "I was charged $50 fee yesterday and I don't know why";
    lit "I want to open a savings account";
    lit "I can't log into my online banking";
    lit "Where is my pending transaction from Amazon?";
    lit "My debit card is not working at ATMs" ].

Definition stages : list str :=
  [ lit "Stage 1 - Intent";
    lit "Stage 2 - Categories";
    lit "Stage 3 - Selected Category";
    lit "Stage 4 - Details";
    lit "Stage 5 - Response" ].

(** [array.forEach((item, idx) => callback)], from index [idx]. *)
Fixpoint forEach {A} (items : list A) (idx : nat) (callback : A -> nat -> M unit)
    : M unit :=
  match items with
  | [] => ret tt
  | item :: items' => callback item idx ;; forEach items' (S idx) callback
  end.

(** The three lines printed at the top of the loop body (lines 206-208). *)
Definition test_case_header (testQueries : list str) (i : nat) : M unit :=
  console_log [nl ++ nl ++ rule 35] ;;
  console_log [lit "TEST CASE " ++ of_N (N.of_nat (i + 1)) ++ lit " of "
               ++ of_N (N.of_nat (List.length testQueries))] ;;
  console_log [rule 35].

(** One iteration of the loop of [main], for [query = testQueries[i]]. *)
Definition process_query (w : world) (testQueries : list str) (i : nat)
    (query : str) : M unit :=
  test_case_header testQueries i ;;
  results <- runPromptChain w query ;;
  (* Summary *)
  console_log [nl ++ rule 45] ;;
  console_log [lit "SUMMARY OF ALL STAGES:"] ;;
  console_log [rule 45] ;;
  forEach stages 0 (fun stage idx =>
    console_log [nl ++ stage ++ lit ":"] ;;
    console_log [nth idx results (lit "undefined")]) ;;
  (* Add delay between queries to respect rate limits *)
  if (Z.of_nat i <? Z.of_nat (List.length testQueries) - 1)%Z then
    console_log [nl ++ hourglass ++ lit " Waiting 2 seconds before next query..."] ;;
    sleep 2000
  else ret tt.

(** [for (let i = ...; i < testQueries.length; i++)], entered at index [i]
    with [remaining] the queries from index [i] on. *)
Fixpoint for_queries (w : world) (testQueries remaining : list str) (i : nat)
    : M unit :=
  match remaining with
  | [] => ret tt
  | query :: remaining' =>
      process_query w testQueries i query ;;
      for_queries w testQueries remaining' (S i)
  end.

(** The handler of the one [try] of [main], around the whole loop. *)
Definition main_catch (error : js_error) : M unit :=
  console_error [nl ++ cross_mark ++ lit " ERROR:"; err_message error] ;;
  console_error [nl ++ lit "Troubleshooting:"] ;;
  console_error [lit "- Check your API key is valid"] ;;
  console_error [lit "- Verify you have credits in your Together AI account"] ;;
  console_error [lit "- Check your internet connection"] ;;
  console_error [lit "- Visit: https://api.together.xyz/settings/api-keys" ++ nl].

(** The four lines printed before the loop (lines 197-200). *)
Definition main_header : M unit :=
  console_log [nl ++ rule 61] ;;
  console_log [lit "BANK CUSTOMER SUPPORT PROMPT CHAIN - TOGETHER AI"] ;;
  console_log [lit "Model:"; MODEL] ;;
  console_log [rule 61].

(** [main], with the list of queries as a parameter. *)
Definition main_on (w : world) (testQueries : list str) : M unit :=
  (* Check if API key is set *)
  if Str.eqb (TOGETHER_API_KEY w) PLACEHOLDER_KEY then
    console_error [nl ++ cross_mark ++ lit " ERROR: Please set your Together AI API key!"] ;;
    console_error [nl ++ lit "Options:"] ;;
    console_error [lit "1. Set environment variable: export TOGETHER_API_KEY="
                   ++ dquote ++ lit "your-key-here" ++ dquote] ;;
    console_error [lit "2. Replace YOUR_TOGETHER_API_KEY_HERE in the code with your actual key"] ;;
    console_error [nl ++ lit "Get your API key from: https://api.together.xyz/settings/api-keys"
                   ++ nl] ;;
    ret tt
  else
    main_header ;;
    try_catch
      ((* Process each query *)
       for_queries w testQueries testQueries 0 ;;
       console_log [nl ++ nl ++ rule 61] ;;
       console_log [check_mark ++ lit " ALL TEST CASES COMPLETED SUCCESSFULLY!"] ;;
       console_log [rule 61 ++ nl])
      main_catch.

Definition main (w : world) : M unit := main_on w testQueries.

(** ** Test doubles

    Services used to run the program on concrete inputs. *)

(** The body of a successful chat completion whose generated text is
    [generated]. *)
Definition completion_body (generated : str) : json :=
  JObj [ (lit "id", JStr (lit "cmpl-1"));
         (lit "choices",
          JArr [ JObj [ (lit "index", JNum 0%Q);
                        (lit "message",
                         JObj [ (lit "role", JStr (lit "assistant"));
                                (lit "content", JStr generated) ]) ] ]) ].

Definition success (generated : str) : fetch_outcome :=
  FetchFulfilled (Response true 200 (inr (completion_body generated))).

Definition network_down : js_error :=
  JsError (lit "TypeError") (lit "fetch failed").

Definition rate_limited : fetch_outcome :=
  FetchFulfilled
    (Response false 429
       (inr (JObj [(lit "error", JStr (lit "rate limit exceeded"))]))).

(** A world with an API key set, the given service and fixed engine texts. *)
Definition mock_world (service : nat -> request -> fetch_outcome) : world :=
  {| env_TOGETHER_API_KEY := Some (lit "key-123");
     respond := service;
     JSON_stringify := fun _ => lit "{...}";
     type_error_message := fun _ k =>
       lit "Cannot read properties of undefined (reading '" ++ key_text k ++ lit "')" |}.

(** The [i]-th call is answered with the [i]-th text of [replies], padded
    with white space; calls beyond the list fail in transit. *)
Definition scripted (replies : list str) : nat -> request -> fetch_outcome :=
  fun i _ =>
    match nth_error replies i with
    | Some reply => success (lit "  " ++ reply ++ nl)
    | None => FetchRejected network_down
    end.

(** A deterministic service: the answer depends on the prompt alone. *)
Definition echo_service : nat -> request -> fetch_outcome :=
  fun _ req =>
    match body_messages req with
    | m :: _ => success (lit "re: " ++ firstn 12 (content m))
    | [] => FetchRejected network_down
    end.

Definition five_replies : list str :=
  [ lit "The customer wants a fee explained.";
    lit "Billing Issue - an unexpected fee";
    lit "Billing Issue: the customer disputes a fee";
    lit "Amount: $50; Date: yesterday";
    lit "We are sorry about the $50 fee charged yesterday." ].

(** * Vocabulary of the properties

    Notions the statements below are written in.  None of them is part of
    the program; each is defined from the definitions above. *)

(** The first code unit of [s], if any, is not white space. *)
Definition head_not_white (s : str) : Prop :=
  forall c s', s = c :: s' -> is_white_space c = false.

(** Every code unit of [s] is white space. *)
Definition all_white (s : str) : Prop :=
  Forall (fun c => is_white_space c = true) s.

(** What the call issued as the [i]-th [fetch] of the process gives. *)
Definition call_result (w : world) (i : nat) (prompt : str)
    (temperature : option Q) (maxTokens : option N) : js_error + str :=
  fst (callTogetherAI w prompt temperature maxTokens (State i [])).

(** The request [callTogetherAI] posts for its arguments. *)
Definition call_request (w : world) (prompt : str)
    (temperature : option Q) (maxTokens : option N) : request :=
  completion_request w prompt (default_arg temperature (3 # 10)%Q)
    (default_arg maxTokens 500%N).

(** What [callTogetherAI] prints before it rethrows. *)
Definition call_log (r : js_error + str) : list event :=
  match r with
  | inl e => [EConsoleError [lit "Error calling Together AI:"; err_message e]]
  | inr _ => []
  end.

(** The five calls of [runPromptChain], as a table: stage [k] (counted
    from 0) sends the prompt, temperature and token bound of entry [k],
    where [outs] holds the outputs of the stages before it. *)
Definition chain_calls (query : str) (outs : list str) : list (str * Q * N) :=
  let intent := nth 0 outs [] in
  let categories := nth 1 outs [] in
  let selectedCategory := nth 2 outs [] in
  let details := nth 3 outs [] in
  [ (prompt1 query, (3 # 10)%Q, 150%N);
    (prompt2 intent, (3 # 10)%Q, 250%N);
    (prompt3 intent query categories, (3 # 10)%Q, 150%N);
    (prompt4 (categoryName selectedCategory) query, (3 # 10)%Q, 200%N);
    (prompt5 selectedCategory intent details query, (5 # 10)%Q, 300%N) ].

(** The request of one entry of the table. *)
Definition request_of_call (w : world) (c : str * Q * N) : request :=
  let '(prompt, temperature, maxTokens) := c in
  call_request w prompt (Some temperature) (Some maxTokens).

(** The requests of the five stages, in order. *)
Definition chain_requests (w : world) (query : str) (outs : list str)
    : list request :=
  map (request_of_call w) (chain_calls query outs).

(** The outcome of stage [k] when the chain starts as the [n0]-th call of
    the process. *)
Definition stage_result (w : world) (n0 : nat) (query : str) (outs : list str)
    (k : nat) : option (js_error + str) :=
  match nth_error (chain_calls query outs) k with
  | Some (prompt, temperature, maxTokens) =>
      Some (call_result w (n0 + k) prompt (Some temperature) (Some maxTokens))
  | None => None
  end.

(** [outs] are the outputs of the first [length outs] stages, each the text
    the service gave for the prompt built from the outputs before it. *)
Definition completed (w : world) (n0 : nat) (query : str) (outs : list str)
    : Prop :=
  forall k, k < List.length outs ->
    stage_result w n0 query outs k = Some (inr (nth k outs [])).

(** What a chain started as call [n0] ends in: [outs] are the outputs of
    the stages that completed, and [r] is the five of them, or the error of
    the stage after the last completed one. *)
Definition chain_outcome (w : world) (n0 : nat) (query : str)
    (outs : list str) (r : js_error + list str) : Prop :=
  List.length outs <= 5 /\
  completed w n0 query outs /\
  match r with
  | inr results => results = outs /\ List.length outs = 5
  | inl e =>
      List.length outs < 5 /\
      stage_result w n0 query outs (List.length outs) = Some (inl e)
  end.

(** The request of stage [k], from the query and the outputs so far. *)
Definition stage_request (w : world) (query : str) (outs : list str) (k : nat)
    : option request :=
  nth_error (chain_requests w query outs) k.

(** The service is deterministic: its answer depends on the request, not
    on when the request is made. *)
Definition deterministic (w : world) : Prop :=
  forall i j req, respond w i req = respond w j req.

(** The parsed body [data] holds no generated text: reading
    [data.choices[0].message.content] throws or gives no string. *)
Definition no_generated_text (w : world) (data : json) : Prop :=
  forall generated,
    read_path w (Some data) content_path <> inr (Some (JStr generated)).

(** Bodies that parse but are not chat completions. *)
Definition malformed_bodies : list json :=
  [ JNull;
    JStr (lit "Bad Gateway");
    JObj [];
    JObj [(lit "error", JStr (lit "overloaded"))];
    JObj [(lit "choices", JNull)];
    JObj [(lit "choices", JArr [])];
    JObj [(lit "choices", JArr [JObj [(lit "text", JStr (lit "hello"))]])];
    JObj [(lit "choices", JArr [JObj [(lit "message", JObj [(lit "role", JStr (lit "assistant"))])]])];
    JObj [(lit "choices", JArr [JObj [(lit "message", JObj [(lit "content", JNull)])]])];
    JObj [(lit "choices", JArr [JObj [(lit "message", JObj [(lit "content", JNum 7%Q)])]])] ].

(** Every answer of the service is a success whose generated text is all
    white space. *)
Definition answers_blank (w : world) : Prop :=
  forall i req, exists resp data generated,
    respond w i req = FetchFulfilled resp /\ ok resp = true /\
    json_body resp = inr data /\
    read_path w (Some data) content_path = inr (Some (JStr generated)) /\
    all_white generated.

(** The query a console line announces, if it is the line
    [console.log('PROCESSING QUERY:', query)] that opens [runPromptChain]. *)
Definition announced (ev : event) : list str :=
  match ev with
  | EConsoleLog [label; query] =>
      if Str.eqb label (lit "PROCESSING QUERY:") then [query] else []
  | _ => []
  end.

(** The queries whose chain was started, in order. *)
Definition started (evs : list event) : list str := flat_map announced evs.

(** The delays of the batch runner among the events, in order. *)
Definition timeouts (evs : list event) : list N :=
  flat_map (fun ev => match ev with ETimeout ms => [ms] | _ => [] end) evs.

(** The lines written with [console.error] among the events, in order. *)
Definition console_errors (evs : list event) : list (list str) :=
  flat_map (fun ev => match ev with EConsoleError args => [args] | _ => [] end) evs.

(** No usable key in the environment: the variable is unset or empty, so
    that line 19 falls back to the placeholder. *)
Definition key_unset (w : world) : Prop :=
  env_TOGETHER_API_KEY w = None \/ env_TOGETHER_API_KEY w = Some [].

(** The key [main] refuses: unset, empty, or the placeholder itself. *)
Definition key_missing (w : world) : Prop :=
  key_unset w \/ env_TOGETHER_API_KEY w = Some PLACEHOLDER_KEY.

(** Every answer of the service is a success that holds a generated text. *)
Definition answers_text (w : world) : Prop :=
  forall i req, exists resp data generated,
    respond w i req = FetchFulfilled resp /\ ok resp = true /\
    json_body resp = inr data /\
    read_path w (Some data) content_path = inr (Some (JStr generated)).

(** What every request of the program has in common (lines 32-50). *)
Definition well_addressed (w : world) (req : request) : Prop :=
  url req = TOGETHER_API_URL /\
  method req = lit "POST" /\
  header_Authorization req = lit "Bearer " ++ TOGETHER_API_KEY w /\
  header_Content_Type req = lit "application/json" /\
  body_model req = MODEL /\
  (exists prompt, body_messages req = [Message (lit "user") prompt]) /\
  body_top_p req = (9 # 10)%Q /\
  body_stop req = [lit "<|eot_id|>"; lit "<|end_of_text|>"].

(** The lines of the summary of one query (lines 213-226): the heading,
    then each stage label followed by the output of that stage. *)
Definition summary_lines (results : list str) : list event :=
  [ EConsoleLog [nl ++ rule 45];
    EConsoleLog [lit "SUMMARY OF ALL STAGES:"];
    EConsoleLog [rule 45] ]
  ++ flat_map
       (fun labelled =>
          [ EConsoleLog [nl ++ fst labelled ++ lit ":"];
            EConsoleLog [snd labelled] ])
       (combine stages results).

(** The pause after the query of index [i], absent after the last one
    (lines 229-232). *)
Definition pause_lines (testQueries : list str) (i : nat) : list event :=
  if (Z.of_nat i <? Z.of_nat (List.length testQueries) - 1)%Z then
    [ EConsoleLog [nl ++ hourglass ++ lit " Waiting 2 seconds before next query..."];
      ETimeout 2000 ]
  else [].

(** The three lines that close a batch without failure (lines 235-237). *)
Definition success_lines : list event :=
  [ EConsoleLog [nl ++ nl ++ rule 61];
    EConsoleLog [check_mark ++ lit " ALL TEST CASES COMPLETED SUCCESSFULLY!"];
    EConsoleLog [rule 61 ++ nl] ].

(** The generated text of a parsed body that has the shape of a chat
    completion: an object whose [choices] is an array, its first element an
    object whose [message] is an object whose [content] is a string.  The
    shape is read off the data, without the property reads of the program. *)
Definition completion_text (data : json) : option str :=
  match data with
  | JObj fields =>
      match own_property fields (lit "choices") with
      | Some (JArr (JObj choice :: _)) =>
          match own_property choice (lit "message") with
          | Some (JObj msg) =>
              match own_property msg (lit "content") with
              | Some (JStr generated) => Some generated
              | _ => None
              end
          | _ => None
          end
      | _ => None
      end
  | _ => None
  end.

(** The body gives [choices] as an object instead of an array; [choices[0]]
    then reads its key "0". *)
Definition choices_keyed (data : json) : Prop :=
  exists fields keyed,
    data = JObj fields /\ own_property fields (lit "choices") = Some (JObj keyed).

(** * Properties *)

(** ** Facts about strings *)

Lemma split_not_nil sep s : split sep s <> [].
Proof.
  destruct s as [|c s]; simpl; [discriminate|].
  destruct (c =? sep)%N; [discriminate|].
  destruct (split sep s); discriminate.
Qed.

Lemma split_hd_no_sep sep s :
  ~ In sep s -> split sep s = [s].
Proof.
  induction s as [|c s IH]; simpl; intros Hnot; [reflexivity|].
  destruct (N.eqb_spec c sep) as [->|Hne].
  - exfalso. apply Hnot. now left.
  - rewrite IH; [reflexivity|]. intros Hin. apply Hnot. now right.
Qed.

Lemma split_hd_first_sep sep pre post :
  ~ In sep pre -> hd [] (split sep (pre ++ sep :: post)) = pre.
Proof.
  induction pre as [|c pre IH]; simpl; intros Hnot.
  - now rewrite N.eqb_refl.
  - destruct (N.eqb_spec c sep) as [->|Hne].
    + exfalso. apply Hnot. now left.
    + assert (Hpre : ~ In sep pre) by (intros Hin; apply Hnot; now right).
      specialize (IH Hpre).
      destruct (split sep (pre ++ sep :: post)) as [|piece pieces] eqn:E.
      * exfalso. exact (split_not_nil _ _ E).
      * simpl in IH. subst piece. reflexivity.
Qed.

(** C3 -- the category name of stage 4 is the text of [selectedCategory]
    before its first colon, trimmed; with no colon it is the whole text,
    trimmed.  On "Billing Issue: explanation text" it is "Billing Issue",
    on "no colon present" it is that same string. *)
Theorem categoryName_before_first_colon :
  (forall pre post, ~ In colon pre ->
     categoryName (pre ++ colon :: post) = trim pre) /\
  (forall s, ~ In colon s -> categoryName s = trim s) /\
  categoryName (lit "Billing Issue: explanation text") = lit "Billing Issue" /\
  categoryName (lit "no colon present") = lit "no colon present" /\
  trim (lit "no colon present") = lit "no colon present".
Proof.
  repeat split.
  - intros pre post Hnot. unfold categoryName.
    now rewrite split_hd_first_sep.
  - intros s Hnot. unfold categoryName.
    now rewrite split_hd_no_sep.
Qed.

Lemma categoryName_before_first_colon_witness :
  ~ In colon (lit " Card Services ") /\
  categoryName (lit " Card Services " ++ colon :: lit " the card: blocked")
    = lit "Card Services" /\
  ~ In colon (lit "  Loan Inquiry") /\
  categoryName (lit "  Loan Inquiry") = lit "Loan Inquiry".
Proof.
  assert (H1 : ~ In colon (lit " Card Services ")).
  { intros H. vm_compute in H. repeat (destruct H as [H|H]; [discriminate H|]).
    exact H. }
  assert (H2 : ~ In colon (lit "  Loan Inquiry")).
  { intros H. vm_compute in H. repeat (destruct H as [H|H]; [discriminate H|]).
    exact H. }
  split; [exact H1|]. split.
  - rewrite (proj1 categoryName_before_first_colon _ _ H1). reflexivity.
  - split; [exact H2|].
    rewrite (proj1 (proj2 categoryName_before_first_colon) _ H2). reflexivity.
Defined.

(** ** Trimming *)

Lemma trimStart_split s :
  exists l, s = l ++ trimStart s /\ all_white l.
Proof.
  induction s as [|c s [l [Hs Hl]]]; simpl.
  - exists []. split; [reflexivity | constructor].
  - destruct (is_white_space c) eqn:Hc.
    + exists (c :: l). split.
      * simpl. now rewrite <- Hs.
      * now constructor.
    + exists []. split; [reflexivity | constructor].
Qed.

Lemma trimStart_head s : head_not_white (trimStart s).
Proof.
  induction s as [|c s IH]; simpl.
  - intros c' s' H. discriminate H.
  - destruct (is_white_space c) eqn:Hc; [exact IH|].
    intros c' s' H. injection H as -> _. exact Hc.
Qed.

Lemma trimEnd_split s :
  exists r, s = trimEnd s ++ r /\ all_white r.
Proof.
  destruct (trimStart_split (rev s)) as [l [Hs Hl]].
  exists (rev l). split.
  - unfold trimEnd. rewrite <- rev_app_distr, <- Hs. now rewrite rev_involutive.
  - unfold all_white. now apply Forall_rev.
Qed.

Lemma trim_split s :
  exists l r, s = l ++ trim s ++ r /\ all_white l /\ all_white r.
Proof.
  destruct (trimStart_split s) as [l [Hs Hl]].
  destruct (trimEnd_split (trimStart s)) as [r [Hr Hwr]].
  exists l, r. unfold trim. now rewrite <- Hr.
Qed.

Lemma trim_trimmed s : trimmed (trim s).
Proof.
  split.
  - intros c s' H.
    destruct (trimEnd_split (trimStart s)) as [r [Hr _]].
    fold (trim s) in Hr. rewrite H in Hr.
    exact (trimStart_head s _ _ Hr).
  - intros c s' H. unfold trim, trimEnd in H.
    apply (f_equal (@rev N)) in H.
    rewrite rev_involutive, rev_app_distr in H. simpl in H.
    exact (trimStart_head _ _ _ H).
Qed.

Lemma trim_all_white s : all_white s -> trim s = [].
Proof.
  intros H. unfold trim.
  assert (E : trimStart s = []).
  { induction H as [|c s Hc _ IH]; simpl; [reflexivity|]. now rewrite Hc. }
  now rewrite E.
Qed.

(** ** One call of the completion service *)

Lemma callTogetherAI_run w prompt temperature maxTokens st :
  callTogetherAI w prompt temperature maxTokens st =
  let r := call_result w (calls st) prompt temperature maxTokens in
  (r, State (S (calls st))
        (trace st ++ EFetch (call_request w prompt temperature maxTokens)
                       :: call_log r)).
Proof.
  unfold call_result, call_request, call_log, callTogetherAI.
  cbv [try_catch bind fetch await throw ret console_error emit].
  cbn [calls trace].
  destruct (respond w (calls st) (completion_request _ _ _ _))
    as [e|[okr sr [e|data]]];
    cbn [ok json_body status]; try destruct okr; cbn [negb];
    try destruct (read_path w (Some data) content_path) as [e|v];
    try destruct (call_trim w v);
    cbn [fst calls trace]; rewrite <- ?app_assoc; reflexivity.
Qed.

(** ** The chain, stage by stage *)

Lemma fetches_app evs1 evs2 :
  fetches (evs1 ++ evs2) = fetches evs1 ++ fetches evs2.
Proof.
  induction evs1 as [|[req|args|args|ms] evs1 IH]; simpl; try exact IH.
  - reflexivity.
  - now rewrite IH.
Qed.

Lemma fetches_call_log r : fetches (call_log r) = [].
Proof. destruct r; reflexivity. Qed.

Tactic Notation "run_call" hyp(H) ident(out) :=
  rewrite callTogetherAI_run in H; cbv zeta in H; cbn [calls trace] in H;
  match type of H with
  | context [call_result ?w ?i ?p ?t ?m] =>
      let C := fresh "Hcall" in
      destruct (call_result w i p t m) as [?e|out] eqn:C
  end;
  cbv [bind console_log emit ret] in H; cbn [call_log calls trace] in H.

Ltac trace_fetches :=
  repeat (rewrite fetches_app; cbn [fetches]);
  rewrite ?app_nil_r, <- ?app_assoc; cbn [app].

Ltac stage_cases k Hk :=
  repeat (destruct k as [|k]; [| apply PeanoNat.lt_S_n in Hk]);
  try (exfalso; exact (PeanoNat.Nat.nlt_0_r _ Hk)).

Ltac chain_leaf outs :=
  exists outs; cbn [List.length trace calls];
  split; [lia|];
  split;
  [ intros k Hk; cbn [List.length] in Hk; stage_cases k Hk;
    unfold stage_result, chain_calls; cbn [nth_error nth];
    rewrite PeanoNat.Nat.add_comm; cbn [Nat.add]; congruence
  | split;
    [ trace_fetches; reflexivity
    | split;
      [ cbn [Nat.min]; lia
      | first
          [ split; [reflexivity | reflexivity]
          | split;
            [ lia
            | unfold stage_result, chain_calls; cbn [nth_error nth List.length];
              rewrite PeanoNat.Nat.add_comm; cbn [Nat.add]; congruence ] ] ] ] ].

Lemma runPromptChain_run w query st r st' :
  runPromptChain w query st = (r, st') ->
  exists outs,
    List.length outs <= 5 /\
    completed w (calls st) query outs /\
    fetches (trace st') =
      fetches (trace st) ++ firstn (S (List.length outs)) (chain_requests w query outs) /\
    calls st' = calls st + Nat.min 5 (S (List.length outs)) /\
    match r with
    | inr results => results = outs /\ List.length outs = 5
    | inl e =>
        List.length outs < 5 /\
        stage_result w (calls st) query outs (List.length outs) = Some (inl e)
    end.
Proof.
  intros H. unfold runPromptChain in H.
  cbv [bind console_log emit ret] in H. cbn [calls trace] in H.
  run_call H intent.
  { injection H as <- <-. chain_leaf (@nil str). }
  run_call H categories.
  { injection H as <- <-. chain_leaf [intent]. }
  run_call H selectedCategory.
  { injection H as <- <-. chain_leaf [intent; categories]. }
  run_call H details.
  { injection H as <- <-. chain_leaf [intent; categories; selectedCategory]. }
  run_call H response.
  { injection H as <- <-.
    chain_leaf [intent; categories; selectedCategory; details]. }
  injection H as <- <-.
  chain_leaf [intent; categories; selectedCategory; details; response].
Qed.

(** Stage [k] reads only the outputs of the stages before it. *)
Lemma nth_of_firstn_eq (k j : nat) (l1 l2 : list str) :
  firstn k l1 = firstn k l2 -> j < k -> nth j l1 [] = nth j l2 [].
Proof.
  intros E Hj.
  assert (F : forall l : list str, nth j l [] = nth j (firstn k l) []).
  { intros l. rewrite nth_firstn.
    destruct (PeanoNat.Nat.ltb_spec j k); [reflexivity | lia]. }
  now rewrite (F l1), (F l2), E.
Qed.

Lemma stage_result_prefix w n0 query outs1 outs2 k :
  firstn k outs1 = firstn k outs2 ->
  stage_result w n0 query outs1 k = stage_result w n0 query outs2 k.
Proof.
  intros E. unfold stage_result, chain_calls.
  do 5 (destruct k as [|k];
        [ cbn [nth_error];
          repeat match goal with
                 | |- context [nth ?j outs1 []] =>
                     rewrite (nth_of_firstn_eq _ j _ _ E) by lia
                 end;
          reflexivity |]).
  cbn [nth_error]. now destruct k.
Qed.

Lemma firstn_snoc_nth (k : nat) (l : list str) :
  k < List.length l -> firstn (S k) l = firstn k l ++ [nth k l []].
Proof.
  revert l. induction k as [|k IH]; intros [|x l] Hk; cbn [List.length] in Hk;
    try lia; [reflexivity|].
  cbn [firstn nth app]. f_equal. apply IH. lia.
Qed.

Section ChainUnique.
Variables (w : world) (n1 n2 : nat) (query : str).
Hypothesis same_service :
  forall outs k, stage_result w n1 query outs k = stage_result w n2 query outs k.

Lemma completed_agree outs1 outs2 :
  completed w n1 query outs1 -> completed w n2 query outs2 ->
  forall k, k <= List.length outs1 -> k <= List.length outs2 ->
    firstn k outs1 = firstn k outs2.
Proof.
  intros C1 C2 k. induction k as [|k IH]; intros H1 H2; [reflexivity|].
  rewrite !firstn_snoc_nth by lia.
  assert (E : firstn k outs1 = firstn k outs2) by (apply IH; lia).
  rewrite E. do 2 f_equal.
  specialize (C1 k H1). specialize (C2 k H2).
  rewrite (stage_result_prefix w n1 query _ _ _ E), same_service, C2 in C1.
  now injection C1.
Qed.

Lemma chain_outcome_unique outs1 outs2 r1 r2 :
  chain_outcome w n1 query outs1 r1 -> chain_outcome w n2 query outs2 r2 ->
  outs1 = outs2 /\ r1 = r2.
Proof.
  intros (L1 & C1 & R1) (L2 & C2 & R2).
  pose proof (completed_agree _ _ C1 C2) as A.
  assert (Hlen : List.length outs1 = List.length outs2).
  { destruct (PeanoNat.Nat.lt_trichotomy (List.length outs1) (List.length outs2))
      as [Hlt|[Heq|Hgt]]; [exfalso | exact Heq | exfalso].
    - destruct r1 as [e|results]; [|lia].
      destruct R1 as [_ R1]. specialize (C2 _ Hlt).
      rewrite (stage_result_prefix w n1 query _ _ _ (A _ (le_n _) (PeanoNat.Nat.lt_le_incl _ _ Hlt))),
        same_service, C2 in R1.
      discriminate R1.
    - destruct r2 as [e|results]; [|lia].
      destruct R2 as [_ R2]. specialize (C1 _ Hgt).
      rewrite <- same_service,
        <- (stage_result_prefix w n1 query _ _ _ (A _ (PeanoNat.Nat.lt_le_incl _ _ Hgt) (le_n _))),
        C1 in R2.
      discriminate R2. }
  assert (E : outs1 = outs2).
  { transitivity (firstn (List.length outs1) outs2).
    - rewrite <- (firstn_all outs1) at 1. apply A; lia.
    - rewrite Hlen. apply firstn_all. }
  split; [exact E|]. subst outs2.
  destruct r1 as [e1|res1], r2 as [e2|res2].
  - destruct R1 as [_ R1], R2 as [_ R2].
    rewrite same_service, R2 in R1. now injection R1 as ->.
  - lia.
  - lia.
  - destruct R1 as [-> _], R2 as [-> _]. reflexivity.
Qed.
End ChainUnique.

Lemma call_result_respond w i prompt temperature maxTokens :
  call_result w i prompt temperature maxTokens =
  match respond w i (call_request w prompt temperature maxTokens) with
  | FetchRejected e => inl e
  | FetchFulfilled resp =>
      match json_body resp with
      | inl e => inl e
      | inr data =>
          if ok resp then
            match read_path w (Some data) content_path with
            | inl e => inl e
            | inr v => call_trim w v
            end
          else inl (api_error w resp data)
      end
  end.
Proof.
  unfold call_result, call_request, callTogetherAI, api_error.
  cbv [try_catch bind fetch await throw ret console_error emit].
  cbn [calls trace].
  destruct (respond w i (completion_request _ _ _ _))
    as [e|[okr sr [e|data]]];
    cbn [ok json_body status]; try destruct okr; cbn [negb];
    try destruct (read_path w (Some data) content_path) as [e|v];
    try destruct (call_trim w v);
    reflexivity.
Qed.

Lemma call_trim_inr w v s :
  call_trim w v = inr s -> exists generated, v = Some (JStr generated) /\ s = trim generated.
Proof.
  destruct v as [[| | |g| |]|]; cbn; intros H; try discriminate H.
  injection H as <-. now exists g.
Qed.

Lemma read_completion_body w generated :
  read_path w (Some (completion_body generated)) content_path
  = inr (Some (JStr generated)).
Proof. reflexivity. Qed.

Lemma runPromptChain_outcome w query st :
  exists outs,
    chain_outcome w (calls st) query outs (fst (runPromptChain w query st)) /\
    fetches (trace (snd (runPromptChain w query st))) =
      fetches (trace st) ++ firstn (S (List.length outs)) (chain_requests w query outs) /\
    calls (snd (runPromptChain w query st)) = calls st + Nat.min 5 (S (List.length outs)).
Proof.
  destruct (runPromptChain w query st) as [r st'] eqn:Hrun.
  destruct (runPromptChain_run _ _ _ _ _ Hrun) as (outs & L & C & F & N & R).
  exists outs. cbn [fst snd]. unfold chain_outcome. auto.
Qed.

Lemma chain_requests_length w query outs :
  List.length (chain_requests w query outs) = 5.
Proof. reflexivity. Qed.

(** ** The result of a chain *)

(** C1 -- for every query, [runPromptChain] either fails or returns
    exactly five texts, in the order intent, categories, selected
    category, details, response: entry [k] is the text the service gave
    at stage [k].  It never returns a shorter or differently ordered
    list. *)
Theorem runPromptChain_five_or_fails w query st :
  (exists e, fst (runPromptChain w query st) = inl e) \/
  (exists intent categories selectedCategory details response,
     let results := [intent; categories; selectedCategory; details; response] in
     fst (runPromptChain w query st) = inr results /\
     List.length results = 5 /\
     stage_result w (calls st) query results 0 = Some (inr intent) /\
     stage_result w (calls st) query results 1 = Some (inr categories) /\
     stage_result w (calls st) query results 2 = Some (inr selectedCategory) /\
     stage_result w (calls st) query results 3 = Some (inr details) /\
     stage_result w (calls st) query results 4 = Some (inr response)).
Proof.
  destruct (runPromptChain_outcome w query st) as (outs & (L & C & R) & _).
  destruct (fst (runPromptChain w query st)) as [e|results].
  - left. now exists e.
  - right. destruct R as [-> Hlen].
    destruct outs as [|o1 [|o2 [|o3 [|o4 [|o5 [|o6 outs]]]]]];
      cbn [List.length] in Hlen; try discriminate Hlen.
    exists o1, o2, o3, o4, o5. cbv zeta.
    repeat split; try reflexivity;
      match goal with
      | |- stage_result _ _ _ _ ?k = _ => apply (C k); cbn [List.length]; lia
      end.
Qed.

(** A run that returns, and one that fails. *)
Example runPromptChain_returns :
  fst (runPromptChain (mock_world (scripted five_replies))
         (nth 0 testQueries []) initial)
  = inr five_replies.
Proof. vm_compute. reflexivity. Qed.

Example runPromptChain_fails :
  fst (runPromptChain (mock_world (scripted (firstn 2 five_replies)))
         (nth 0 testQueries []) initial)
  = inl network_down.
Proof. vm_compute. reflexivity. Qed.

(** C2 -- if the stages before stage [k] completed (with outputs [outs],
    so [k] is [length outs + 1]) and the call of stage [k] fails with [e],
    then [runPromptChain] fails with that same [e] and returns no list; it
    has issued exactly [k] requests, those of stages 1 to [k], each once:
    no later stage is invoked and none is retried. *)
Theorem stage_failure_aborts_chain w query st outs e :
  List.length outs < 5 ->
  completed w (calls st) query outs ->
  stage_result w (calls st) query outs (List.length outs) = Some (inl e) ->
  let reqs := firstn (S (List.length outs)) (chain_requests w query outs) in
  fst (runPromptChain w query st) = inl e /\
  fetches (trace (snd (runPromptChain w query st))) = fetches (trace st) ++ reqs /\
  List.length reqs = S (List.length outs) /\
  calls (snd (runPromptChain w query st)) = calls st + S (List.length outs).
Proof.
  intros Hlen Hdone Hfail reqs. subst reqs.
  destruct (runPromptChain_outcome w query st) as (outs' & Hout & Hfetch & Hcalls).
  assert (Hmine : chain_outcome w (calls st) query outs (inl e)).
  { unfold chain_outcome. repeat split; [lia | exact Hdone | exact Hlen | exact Hfail]. }
  destruct (chain_outcome_unique w (calls st) (calls st) query
              (fun _ _ => eq_refl) _ _ _ _ Hout Hmine) as [-> Hr].
  repeat split.
  - exact Hr.
  - exact Hfetch.
  - rewrite length_firstn, chain_requests_length. lia.
  - rewrite Hcalls. lia.
Qed.

(** The service answers the first two calls and is unreachable at the
    third: stage 3 fails, stages 4 and 5 are not invoked. *)
Lemma stage_failure_aborts_chain_witness :
  let w := mock_world (scripted (firstn 2 five_replies)) in
  let query := nth 0 testQueries [] in
  fst (runPromptChain w query initial) = inl network_down /\
  List.length (fetches (trace (snd (runPromptChain w query initial)))) = 3.
Proof.
  intros w query.
  assert (Hdone : completed w (calls initial) query (firstn 2 five_replies)).
  { intros k Hk. cbn [List.length firstn five_replies] in Hk. stage_cases k Hk;
      vm_compute; reflexivity. }
  destruct (stage_failure_aborts_chain w query initial (firstn 2 five_replies)
              network_down) as (Hr & Hf & Hn & _).
  - cbn. lia.
  - exact Hdone.
  - vm_compute. reflexivity.
  - split; [exact Hr|]. rewrite Hf. exact Hn.
Defined.

(** ** Order of the stages and their context *)

Lemma stage_request_prefix w query outs1 outs2 k :
  firstn k outs1 = firstn k outs2 ->
  stage_request w query outs1 k = stage_request w query outs2 k.
Proof.
  intros E. unfold stage_request, chain_requests, chain_calls.
  do 5 (destruct k as [|k];
        [ cbn [nth_error map];
          repeat match goal with
                 | |- context [nth ?j outs1 []] =>
                     rewrite (nth_of_firstn_eq _ j _ _ E) by lia
                 end;
          reflexivity |]).
  cbn [nth_error map]. now destruct k.
Qed.

(** C5 -- in every execution, started in any state [st] (whatever ran
    before), there are outputs [outs] of the completed stages such that
    every request issued, the one of stage [k] say (counted from 0), comes
    after all stages [j < k] returned a text, and is built from the query
    and the outputs of those stages alone, [firstn k outs]: no output of a
    later stage and nothing of the earlier history enters it. *)
Theorem stage_order_and_context w query st :
  exists outs reqs,
    fetches (trace (snd (runPromptChain w query st))) = fetches (trace st) ++ reqs /\
    forall k req, nth_error reqs k = Some req ->
      k <= List.length outs /\
      (forall j, j < k ->
         stage_result w (calls st) query (firstn j outs) j = Some (inr (nth j outs []))) /\
      stage_request w query (firstn k outs) k = Some req.
Proof.
  destruct (runPromptChain_outcome w query st) as (outs & (L & C & R) & F & _).
  exists outs, (firstn (S (List.length outs)) (chain_requests w query outs)).
  split; [exact F|].
  intros k req Hk.
  assert (Hlt : k < S (List.length outs)).
  { assert (Hne : nth_error (firstn (S (List.length outs)) (chain_requests w query outs)) k
                  <> None) by (rewrite Hk; discriminate).
    apply nth_error_Some in Hne. rewrite length_firstn in Hne. lia. }
  repeat split.
  - lia.
  - intros j Hj.
    rewrite (stage_result_prefix w (calls st) query (firstn j outs) outs j).
    + apply C. lia.
    + rewrite firstn_firstn. now rewrite PeanoNat.Nat.min_id.
  - rewrite (stage_request_prefix w query (firstn k outs) outs k).
    + unfold stage_request. rewrite <- Hk.
      rewrite nth_error_firstn.
      destruct (PeanoNat.Nat.ltb_spec k (S (List.length outs))); [reflexivity | lia].
    + rewrite firstn_firstn. now rewrite PeanoNat.Nat.min_id.
Qed.

(** ** Determinism *)

Lemma deterministic_stage_result w n1 n2 query :
  deterministic w ->
  forall outs k, stage_result w n1 query outs k = stage_result w n2 query outs k.
Proof.
  intros D outs k. unfold stage_result.
  destruct (nth_error (chain_calls query outs) k) as [[[p t] m]|]; [|reflexivity].
  f_equal. rewrite !call_result_respond.
  now rewrite (D (n1 + k) (n2 + k)).
Qed.

(** C7 -- with a deterministic service, running the chain twice on the
    same query gives the same outcome: the second run, started where the
    first ended, returns the same five texts (or fails with the same
    error). *)
Theorem runPromptChain_twice_same_result w query st :
  deterministic w ->
  let first := runPromptChain w query st in
  let second := runPromptChain w query (snd first) in
  fst second = fst first /\
  (forall results, fst first = inr results ->
     fst second = inr results /\ List.length results = 5).
Proof.
  intros D first second.
  destruct (runPromptChain_outcome w query st) as (outs1 & O1 & _).
  destruct (runPromptChain_outcome w query (snd first)) as (outs2 & O2 & _).
  fold first in O1. fold second in O2.
  destruct (chain_outcome_unique w _ _ query
              (deterministic_stage_result w _ _ query D) _ _ _ _ O2 O1)
    as [-> Hr].
  split; [exact Hr|].
  intros results Hres. split; [now rewrite Hr|].
  destruct O1 as (_ & _ & R). rewrite Hres in R. destruct R as [-> R]. exact R.
Qed.

Lemma runPromptChain_twice_same_result_witness :
  let w := mock_world echo_service in
  let query := nth 1 testQueries [] in
  let first := runPromptChain w query initial in
  exists results,
    fst first = inr results /\
    fst (runPromptChain w query (snd first)) = inr results /\
    List.length results = 5.
Proof.
  intros w query first.
  assert (D : deterministic w) by (intros i j req; reflexivity).
  destruct (runPromptChain_twice_same_result w query initial D) as [_ H].
  destruct (fst first) as [e|results] eqn:E; [vm_compute in E; discriminate E|].
  exists results. split; [reflexivity|]. exact (H results E).
Defined.

(** ** What the prompts embed *)

Ltac embedded :=
  match goal with
  | |- contains ?s (?a ++ ?s ++ ?b) => exists a, b; reflexivity
  | |- contains ?s (?s ++ ?b) => exists (@nil N), b; reflexivity
  | |- contains ?s (?a ++ ?rest) =>
      let H := fresh in
      assert (H : contains s rest) by embedded;
      let x := fresh in let y := fresh in
      destruct H as (x & y & H); exists (a ++ x), y;
      rewrite H, <- app_assoc; reflexivity
  end.

Lemma prompt2_embeds intent : contains intent (prompt2 intent).
Proof. unfold prompt2. embedded. Qed.

Lemma prompt3_embeds intent query categories :
  contains intent (prompt3 intent query categories) /\
  contains query (prompt3 intent query categories) /\
  contains categories (prompt3 intent query categories).
Proof. unfold prompt3. repeat split; embedded. Qed.

Lemma prompt4_embeds name query :
  contains name (prompt4 name query) /\ contains query (prompt4 name query).
Proof. unfold prompt4. repeat split; embedded. Qed.

Lemma prompt5_embeds selectedCategory intent details query :
  contains selectedCategory (prompt5 selectedCategory intent details query) /\
  contains intent (prompt5 selectedCategory intent details query) /\
  contains details (prompt5 selectedCategory intent details query) /\
  contains query (prompt5 selectedCategory intent details query).
Proof. unfold prompt5. repeat split; embedded. Qed.

(** C4 -- the prompt of each stage 2 to 5 contains verbatim the inputs its
    stage is defined on: stage 2 the intent; stage 3 the intent, the query
    and the categories; stage 4 the query and the category name derived
    from the selected category; stage 5 the selected category, the intent,
    the details and the query.  These are the prompts [runPromptChain]
    sends, for the outputs [outs] the earlier stages returned. *)
Theorem stage_prompts_embed_inputs :
  (forall query intent categories selectedCategory details,
     contains intent (prompt2 intent) /\
     (contains intent (prompt3 intent query categories) /\
      contains query (prompt3 intent query categories) /\
      contains categories (prompt3 intent query categories)) /\
     (contains query (prompt4 (categoryName selectedCategory) query) /\
      contains (categoryName selectedCategory)
        (prompt4 (categoryName selectedCategory) query)) /\
     (contains selectedCategory (prompt5 selectedCategory intent details query) /\
      contains intent (prompt5 selectedCategory intent details query) /\
      contains details (prompt5 selectedCategory intent details query) /\
      contains query (prompt5 selectedCategory intent details query))) /\
  (forall w query st,
     exists outs reqs,
       completed w (calls st) query outs /\
       fetches (trace (snd (runPromptChain w query st))) = fetches (trace st) ++ reqs /\
       let intent := nth 0 outs [] in
       let categories := nth 1 outs [] in
       let selectedCategory := nth 2 outs [] in
       let details := nth 3 outs [] in
       map prompt_of reqs =
       firstn (S (List.length outs))
         [ [prompt1 query];
           [prompt2 intent];
           [prompt3 intent query categories];
           [prompt4 (categoryName selectedCategory) query];
           [prompt5 selectedCategory intent details query] ]).
Proof.
  split.
  - intros query intent categories selectedCategory details.
    pose proof (prompt3_embeds intent query categories).
    pose proof (prompt4_embeds (categoryName selectedCategory) query).
    pose proof (prompt5_embeds selectedCategory intent details query).
    pose proof (prompt2_embeds intent).
    tauto.
  - intros w query st.
    destruct (runPromptChain_outcome w query st) as (outs & (L & C & R) & F & _).
    exists outs, (firstn (S (List.length outs)) (chain_requests w query outs)).
    split; [exact C|]. split; [exact F|]. cbv zeta.
    rewrite <- firstn_map. reflexivity.
Qed.

Lemma prefixb_app s after : prefixb s (s ++ after) = true.
Proof.
  induction s as [|c s IH]; [reflexivity|].
  cbn. now rewrite N.eqb_refl, IH.
Qed.

Lemma contains_containsb s p : contains s p -> containsb s p = true.
Proof.
  intros (before & after & ->).
  induction before as [|c before IH].
  - cbn [app]. destruct (s ++ after) eqn:E; cbn [containsb]; rewrite <- E;
      now rewrite prefixb_app.
  - cbn [app containsb]. rewrite IH. apply orb_true_r.
Qed.

(** Stage 4 is given the category name, not the selected category: when
    the latter carries a rationale after a colon, the prompt of stage 4
    does not contain it whole. *)
Example prompt4_omits_rationale :
  let selectedCategory := lit "Billing Issue: explanation text" in
  ~ contains selectedCategory
      (prompt4 (categoryName selectedCategory) (nth 0 testQueries [])).
Proof.
  intros selectedCategory H. apply contains_containsb in H.
  vm_compute in H. discriminate H.
Qed.

(** The templates have the length of their source text: with empty
    inputs, the number of code units outside the interpolations. *)
Example template_lengths :
  map (@List.length N)
    [prompt1 []; prompt2 []; prompt3 [] [] []; prompt4 [] []; prompt5 [] [] [] []]
  = [301; 389; 368; 560; 403].
Proof. vm_compute. reflexivity. Qed.

(** ** Temperatures *)

(** C9 -- in every execution, the request of stage 5, when it is issued,
    carries a temperature strictly higher than the request of each of the
    stages 1 to 4 (0.5 against 0.3). *)
Theorem response_stage_temperature_higher w query st :
  exists reqs,
    fetches (trace (snd (runPromptChain w query st))) = fetches (trace st) ++ reqs /\
    forall k req req5,
      k < 4 -> nth_error reqs k = Some req -> nth_error reqs 4 = Some req5 ->
      (body_temperature req < body_temperature req5)%Q /\
      body_temperature req = (3 # 10)%Q /\ body_temperature req5 = (5 # 10)%Q.
Proof.
  destruct (runPromptChain_outcome w query st) as (outs & _ & F & _).
  exists (firstn (S (List.length outs)) (chain_requests w query outs)).
  split; [exact F|].
  intros k req req5 Hk Hreq Hreq5.
  rewrite nth_error_firstn in Hreq, Hreq5.
  destruct (PeanoNat.Nat.ltb k (S (List.length outs))); [|discriminate Hreq].
  destruct (PeanoNat.Nat.ltb 4 (S (List.length outs))); [|discriminate Hreq5].
  unfold chain_requests, chain_calls in Hreq, Hreq5.
  cbn [map nth_error request_of_call] in Hreq5. injection Hreq5 as <-.
  stage_cases k Hk;
    cbn [map nth_error request_of_call] in Hreq; injection Hreq as <-;
    cbn; repeat split; reflexivity.
Qed.

(** ** The contract of callTogetherAI *)

Lemma malformed_bodies_no_text w data :
  In data malformed_bodies -> no_generated_text w data.
Proof.
  intros Hin generated. cbn [malformed_bodies In] in Hin.
  repeat (destruct Hin as [<-|Hin]; [vm_compute; discriminate|]).
  destruct Hin.
Qed.

Lemma call_trim_not_string w v :
  (forall generated, v <> Some (JStr generated)) -> exists e, call_trim w v = inl e.
Proof.
  intros H. destruct v as [[| | |g| |]|]; cbn; eauto.
  exfalso. exact (H g eq_refl).
Qed.

Lemma get_name_of_string w s name :
  Str.eqb name (lit "length") = false -> get w (Some (JStr s)) (PName name) = inr None.
Proof. intros H. cbn [get]. now rewrite H. Qed.

Lemma get_name_of_array w items name :
  Str.eqb name (lit "length") = false -> get w (Some (JArr items)) (PName name) = inr None.
Proof. intros H. cbn [get]. now rewrite H. Qed.

Ltac read_step :=
  cbn [fold_left get key_text nth_error option_map N.to_nat];
  rewrite ?get_name_of_string, ?get_name_of_array by (vm_compute; reflexivity).

(** A body of the shape of a chat completion is read to its text. *)
Lemma completion_text_read w data generated :
  completion_text data = Some generated ->
  read_path w (Some data) content_path = inr (Some (JStr generated)).
Proof.
  unfold completion_text, read_path, content_path. intros H.
  destruct data as [| | | | |fields]; try discriminate H. read_step.
  destruct (own_property fields (lit "choices")) as [[| | | |[|[| | | | |choice] rest]|]|];
    try discriminate H. read_step.
  destruct (own_property choice (lit "message")) as [[| | | | |msg]|];
    try discriminate H. read_step.
  destruct (own_property msg (lit "content")) as [[| | |g| |]|];
    try discriminate H.
  now injection H as <-.
Qed.

(** A body of another shape holds no text, unless [choices] is an object. *)
Lemma completion_text_none w data :
  completion_text data = None -> ~ choices_keyed data -> no_generated_text w data.
Proof.
  unfold completion_text, no_generated_text, read_path, content_path.
  intros H Hkeyed generated.
  destruct data as [| | |s|items|fields]; read_step; try discriminate.
  destruct (own_property fields (lit "choices"))
    as [[| | |s|[|[| | |s|items|choice] rest]|keyed]|] eqn:Hchoices;
    read_step; try discriminate.
  - destruct s as [|c s]; read_step; discriminate.
  - destruct (own_property choice (lit "message")) as [[| | |s|items|msg]|];
      read_step; try discriminate.
    destruct (own_property msg (lit "content")) as [[| | |g| |]|];
      try discriminate H; discriminate.
  - exfalso. apply Hkeyed. now exists fields, keyed.
Qed.

(** C6 -- [callTogetherAI] issues one request and no second one, whatever
    the answer.  On a successful answer whose body is a chat completion it
    returns the generated text with the white space at both ends removed,
    and a text it returns is always such a text.  It fails, with the error
    at hand, when [fetch] is rejected (transport error), when the status
    is not a success, when the body is not JSON (an empty body included),
    and when the JSON body is malformed: not of the shape of a chat
    completion, or more generally holding no generated text. *)
Theorem callTogetherAI_contract w prompt temperature maxTokens st :
  let req := call_request w prompt temperature maxTokens in
  let out := callTogetherAI w prompt temperature maxTokens st in
  (fetches (trace (snd out)) = fetches (trace st) ++ [req] /\
   calls (snd out) = S (calls st)) /\
  (forall resp data generated,
     respond w (calls st) req = FetchFulfilled resp ->
     ok resp = true -> json_body resp = inr data ->
     completion_text data = Some generated ->
     fst out = inr (trim generated) /\
     trimmed (trim generated) /\
     exists l r, generated = l ++ trim generated ++ r /\ all_white l /\ all_white r) /\
  (forall resp data generated,
     respond w (calls st) req = FetchFulfilled resp ->
     ok resp = true -> json_body resp = inr data ->
     read_path w (Some data) content_path = inr (Some (JStr generated)) ->
     fst out = inr (trim generated)) /\
  (forall s, fst out = inr s ->
     trimmed s /\
     exists resp data generated l r,
       respond w (calls st) req = FetchFulfilled resp /\
       ok resp = true /\ json_body resp = inr data /\
       read_path w (Some data) content_path = inr (Some (JStr generated)) /\
       s = trim generated /\
       generated = l ++ s ++ r /\ all_white l /\ all_white r) /\
  (forall e, respond w (calls st) req = FetchRejected e -> fst out = inl e) /\
  (forall resp, respond w (calls st) req = FetchFulfilled resp -> ok resp = false ->
     fst out = inl match json_body resp with
                   | inl e => e
                   | inr errorData => api_error w resp errorData
                   end) /\
  (forall resp e, respond w (calls st) req = FetchFulfilled resp ->
     json_body resp = inl e -> fst out = inl e) /\
  (forall resp data, respond w (calls st) req = FetchFulfilled resp ->
     json_body resp = inr data ->
     completion_text data = None -> ~ choices_keyed data ->
     exists e, fst out = inl e) /\
  (forall resp data, respond w (calls st) req = FetchFulfilled resp ->
     json_body resp = inr data -> no_generated_text w data ->
     exists e, fst out = inl e).
Proof.
  intros req out. subst req out. rewrite callTogetherAI_run. cbv zeta.
  cbn [fst snd trace calls]. rewrite call_result_respond.
  split; [split; [|reflexivity]|].
  { rewrite fetches_app. cbn [fetches]. now rewrite fetches_call_log. }
  assert (Hfails : forall resp data,
            respond w (calls st) (call_request w prompt temperature maxTokens)
              = FetchFulfilled resp ->
            json_body resp = inr data -> no_generated_text w data ->
            exists e,
              match respond w (calls st) (call_request w prompt temperature maxTokens) with
              | FetchRejected e0 => inl e0
              | FetchFulfilled resp0 =>
                  match json_body resp0 with
                  | inl e0 => inl e0
                  | inr data0 =>
                      if ok resp0
                      then match read_path w (Some data0) content_path with
                           | inl e0 => inl e0
                           | inr v => call_trim w v
                           end
                      else inl (api_error w resp0 data0)
                  end
              end = inl e).
  { intros resp data H Hbody Hno. rewrite H, Hbody.
    destruct (ok resp); [|eauto].
    destruct (read_path w (Some data) content_path) as [e|v] eqn:Hpath; [eauto|].
    apply call_trim_not_string. intros generated ->. exact (Hno generated Hpath). }
  assert (Hreturns : forall resp data generated,
            respond w (calls st) (call_request w prompt temperature maxTokens)
              = FetchFulfilled resp ->
            ok resp = true -> json_body resp = inr data ->
            read_path w (Some data) content_path = inr (Some (JStr generated)) ->
            match respond w (calls st) (call_request w prompt temperature maxTokens) with
            | FetchRejected e0 => inl e0
            | FetchFulfilled resp0 =>
                match json_body resp0 with
                | inl e0 => inl e0
                | inr data0 =>
                    if ok resp0
                    then match read_path w (Some data0) content_path with
                         | inl e0 => inl e0
                         | inr v => call_trim w v
                         end
                    else inl (api_error w resp0 data0)
                end
            end = inr (trim generated)).
  { intros resp data generated H Hok Hbody Hpath.
    now rewrite H, Hbody, Hok, Hpath. }
  split; [|split; [exact Hreturns|]].
  { intros resp data generated H Hok Hbody Hshape. split.
    - apply (Hreturns resp data generated H Hok Hbody).
      now apply completion_text_read.
    - split; [apply trim_trimmed|].
      destruct (trim_split generated) as (l & r & Hg & Hl & Hr).
      exists l, r. auto. }
  split; [|split; [|split; [|split; [|split; [|exact Hfails]]]]].
  - intros s Hs.
    destruct (respond w (calls st) (call_request w prompt temperature maxTokens))
      as [e0|resp0]; [discriminate Hs|].
    destruct (json_body resp0) as [e|data] eqn:Hbody; [discriminate Hs|].
    destruct (ok resp0) eqn:Hok; [|discriminate Hs].
    destruct (read_path w (Some data) content_path) as [e|v] eqn:Hpath;
      [discriminate Hs|].
    destruct (call_trim_inr _ _ _ Hs) as (generated & -> & ->).
    split; [apply trim_trimmed|].
    destruct (trim_split generated) as (l & r & Hg & Hl & Hr).
    exists resp0, data, generated, l, r. repeat split; auto.
  - intros e H. now rewrite H.
  - intros resp H Hok. rewrite H, Hok. now destruct (json_body resp).
  - intros resp e H Hbody. now rewrite H, Hbody.
  - intros resp data H Hbody Hshape Hkeyed.
    apply (Hfails resp data H Hbody). now apply completion_text_none.
Qed.

(** A rejected [fetch], a status 429, a body that is not JSON, an empty
    object as body, a completion without choices, and a completion whose
    text is returned trimmed. *)
Lemma callTogetherAI_contract_witness :
  let prompt := lit "Hello" in
  let syntax_error := JsError (lit "SyntaxError") (lit "Unexpected end of JSON input") in
  fst (callTogetherAI (mock_world (fun _ _ => FetchRejected network_down))
         prompt None None initial) = inl network_down /\
  fst (callTogetherAI (mock_world (fun _ _ => rate_limited))
         prompt (Some (3 # 10)%Q) (Some 150%N) initial)
  = inl (JsError (lit "Error") (lit "Together AI API Error: 429 - {...}")) /\
  fst (callTogetherAI
         (mock_world (fun _ _ => FetchFulfilled (Response true 200 (inl syntax_error))))
         prompt None None initial) = inl syntax_error /\
  (exists e,
     fst (callTogetherAI
            (mock_world (fun _ _ => FetchFulfilled (Response true 200 (inr (JObj [])))))
            prompt None None initial) = inl e) /\
  (exists e,
     fst (callTogetherAI
            (mock_world (fun _ _ =>
               FetchFulfilled
                 (Response true 200 (inr (JObj [(lit "choices", JArr [])])))))
            prompt None None initial) = inl e) /\
  fst (callTogetherAI (mock_world (scripted five_replies))
         (lit "second") None None (State 1 []))
  = inr (lit "Billing Issue - an unexpected fee") /\
  trimmed (lit "Billing Issue - an unexpected fee").
Proof.
  intros prompt syntax_error.
  split; [|split; [|split; [|split; [|split]]]].
  - destruct (callTogetherAI_contract
                (mock_world (fun _ _ => FetchRejected network_down))
                prompt None None initial) as (_ & _ & _ & _ & H & _).
    apply H. reflexivity.
  - destruct (callTogetherAI_contract (mock_world (fun _ _ => rate_limited))
                prompt (Some (3 # 10)%Q) (Some 150%N) initial)
      as (_ & _ & _ & _ & _ & H & _).
    rewrite (H _ eq_refl eq_refl). reflexivity.
  - destruct (callTogetherAI_contract
                (mock_world (fun _ _ =>
                   FetchFulfilled (Response true 200 (inl syntax_error))))
                prompt None None initial) as (_ & _ & _ & _ & _ & _ & H & _).
    exact (H _ syntax_error eq_refl eq_refl).
  - destruct (callTogetherAI_contract
                (mock_world (fun _ _ => FetchFulfilled (Response true 200 (inr (JObj [])))))
                prompt None None initial) as (_ & _ & _ & _ & _ & _ & _ & _ & H).
    apply (H _ (JObj []) eq_refl eq_refl).
    apply malformed_bodies_no_text. cbn. auto.
  - destruct (callTogetherAI_contract
                (mock_world (fun _ _ =>
                   FetchFulfilled
                     (Response true 200 (inr (JObj [(lit "choices", JArr [])])))))
                prompt None None initial) as (_ & _ & _ & _ & _ & _ & _ & H & _).
    apply (H _ (JObj [(lit "choices", JArr [])]) eq_refl eq_refl eq_refl).
    intros (fields & keyed & E & Hk). injection E as <-.
    vm_compute in Hk. discriminate Hk.
  - destruct (callTogetherAI_contract (mock_world (scripted five_replies))
                (lit "second") None None (State 1 [])) as (_ & H & _).
    destruct (H _ (completion_body (lit "  " ++ nth 1 five_replies [] ++ nl))
                (lit "  " ++ nth 1 five_replies [] ++ nl)
                eq_refl eq_refl eq_refl eq_refl) as (Hret & Htrim & _).
    change (trim (lit "  " ++ nth 1 five_replies [] ++ nl))
      with (lit "Billing Issue - an unexpected fee") in Hret, Htrim.
    split; [exact Hret | exact Htrim].
Defined.

(** ** Empty generated text *)

Lemma blank_call_result w i prompt temperature maxTokens resp data generated :
  respond w i (call_request w prompt temperature maxTokens) = FetchFulfilled resp ->
  ok resp = true -> json_body resp = inr data ->
  read_path w (Some data) content_path = inr (Some (JStr generated)) ->
  all_white generated ->
  call_result w i prompt temperature maxTokens = inr [].
Proof.
  intros Hresp Hok Hbody Hpath Hwhite.
  rewrite call_result_respond, Hresp, Hbody, Hok, Hpath. cbn [call_trim].
  now rewrite trim_all_white.
Qed.

(** C10 -- a success answer whose generated text is empty or all white
    space does not make [callTogetherAI] fail: it returns the empty string.
    A chain served only such answers returns five empty strings. *)
Theorem empty_generated_text_is_returned :
  (forall w prompt temperature maxTokens st resp data generated,
     respond w (calls st) (call_request w prompt temperature maxTokens)
       = FetchFulfilled resp ->
     ok resp = true -> json_body resp = inr data ->
     read_path w (Some data) content_path = inr (Some (JStr generated)) ->
     all_white generated ->
     fst (callTogetherAI w prompt temperature maxTokens st) = inr []) /\
  (forall w query st,
     answers_blank w ->
     fst (runPromptChain w query st) = inr [[]; []; []; []; []]).
Proof.
  split.
  - intros w prompt temperature maxTokens st resp data generated
           Hresp Hok Hbody Hpath Hwhite.
    rewrite callTogetherAI_run. cbv zeta. cbn [fst].
    exact (blank_call_result _ _ _ _ _ _ _ _ Hresp Hok Hbody Hpath Hwhite).
  - intros w query st Hblank.
    assert (Hstage : forall outs k, k < 5 ->
              stage_result w (calls st) query outs k = Some (inr [])).
    { intros outs k Hk. unfold stage_result, chain_calls.
      stage_cases k Hk; cbn [nth_error]; f_equal;
        match goal with
        | |- call_result ?w ?i ?p ?t ?m = _ =>
            destruct (Hblank i (call_request w p t m))
              as (resp & data & generated & H1 & H2 & H3 & H4 & H5);
            exact (blank_call_result _ _ _ _ _ _ _ _ H1 H2 H3 H4 H5)
        end. }
    destruct (runPromptChain_outcome w query st) as (outs & (L & C & R) & _).
    destruct (fst (runPromptChain w query st)) as [e|results].
    + destruct R as [Hlt R]. rewrite (Hstage outs _ Hlt) in R. discriminate R.
    + destruct R as [-> Hlen]. f_equal.
      assert (Hnil : forall k, k < 5 -> nth k outs [] = []).
      { intros k Hk. rewrite <- Hlen in Hk. pose proof (C k Hk) as Ck.
        rewrite Hstage in Ck by lia. now injection Ck. }
      destruct outs as [|o1 [|o2 [|o3 [|o4 [|o5 [|o6 outs]]]]]];
        cbn [List.length] in Hlen; try discriminate Hlen.
      pose proof (Hnil 0 ltac:(lia)) as E0. pose proof (Hnil 1 ltac:(lia)) as E1.
      pose proof (Hnil 2 ltac:(lia)) as E2. pose proof (Hnil 3 ltac:(lia)) as E3.
      pose proof (Hnil 4 ltac:(lia)) as E4. cbn [nth] in E0, E1, E2, E3, E4.
      now subst.
Qed.

Lemma empty_generated_text_is_returned_witness :
  let w := mock_world (fun _ _ => success (lit "   " ++ nl)) in
  fst (callTogetherAI w (lit "Hello") None None initial) = inr [] /\
  fst (runPromptChain w (nth 0 testQueries []) initial) = inr [[]; []; []; []; []].
Proof.
  intros w.
  assert (Hwhite : all_white (lit "   " ++ nl)) by (repeat constructor).
  split.
  - apply (proj1 empty_generated_text_is_returned w (lit "Hello") None None initial
             _ _ (lit "   " ++ nl) eq_refl eq_refl eq_refl eq_refl Hwhite).
  - apply (proj2 empty_generated_text_is_returned w).
    intros i req.
    exists (Response true 200 (inr (completion_body (lit "   " ++ nl)))),
           (completion_body (lit "   " ++ nl)), (lit "   " ++ nl).
    repeat split; try reflexivity. exact Hwhite.
Defined.

(** ** The batch runner *)

Lemma started_app evs1 evs2 : started (evs1 ++ evs2) = started evs1 ++ started evs2.
Proof. apply flat_map_app. Qed.

Lemma started_other label x :
  Str.eqb label (lit "PROCESSING QUERY:") = false ->
  started [EConsoleLog [label; x]] = [].
Proof. intros H. unfold started. cbn [flat_map announced]. now rewrite H. Qed.

Lemma started_call_log r : started (call_log r) = [].
Proof. destruct r; reflexivity. Qed.

Lemma started_announce query :
  started [EConsoleLog [lit "PROCESSING QUERY:"; query]] = [query].
Proof. reflexivity. Qed.

Ltac trace_started :=
  cbn [trace];
  repeat rewrite started_app;
  rewrite ?started_announce;
  repeat (rewrite started_other by (vm_compute; reflexivity));
  cbn [started flat_map announced app];
  rewrite ?app_nil_r.

Lemma runPromptChain_started w query st :
  started (trace (snd (runPromptChain w query st))) = started (trace st) ++ [query].
Proof.
  destruct (runPromptChain w query st) as [r st'] eqn:H. cbn [snd].
  unfold runPromptChain in H.
  cbv [bind console_log emit ret] in H. cbn [calls trace] in H.
  run_call H intent; [injection H as <- <-; trace_started; reflexivity|].
  run_call H categories; [injection H as <- <-; trace_started; reflexivity|].
  run_call H selectedCategory; [injection H as <- <-; trace_started; reflexivity|].
  run_call H details; [injection H as <- <-; trace_started; reflexivity|].
  run_call H response; [injection H as <- <-; trace_started; reflexivity|].
  injection H as <- <-. trace_started. reflexivity.
Qed.

Lemma test_case_header_returns tq i st :
  test_case_header tq i st = (inr tt, snd (test_case_header tq i st)).
Proof. reflexivity. Qed.

Lemma process_query_run w tq i query st :
  let st0 := snd (test_case_header tq i st) in
  match runPromptChain w query st0 with
  | (inl e, st1) => process_query w tq i query st = (inl e, st1)
  | (inr results, st1) =>
      exists st2,
        process_query w tq i query st = (inr tt, st2) /\
        started (trace st2) = started (trace st1) /\
        fetches (trace st2) = fetches (trace st1)
  end.
Proof.
  cbv zeta.
  destruct (runPromptChain w query (snd (test_case_header tq i st)))
    as [[e|results] st1] eqn:Hrun.
  - unfold process_query. unfold bind at 1. rewrite test_case_header_returns.
    unfold bind at 1. now rewrite Hrun.
  - unfold process_query.
    destruct (Z.of_nat i <? Z.of_nat (List.length tq) - 1)%Z;
      eexists; unfold bind at 1;
      rewrite test_case_header_returns; unfold bind at 1; rewrite Hrun;
      cbv [bind console_log emit ret forEach stages sleep];
      cbn [calls trace];
      (split; [reflexivity|]); cbn [trace]; split.
    all: try (repeat rewrite started_app; cbn [started flat_map announced app];
              now rewrite ?app_nil_r).
    all: repeat rewrite fetches_app; cbn [fetches app]; now rewrite ?app_nil_r.
Qed.

Lemma test_case_header_quiet tq i st :
  started (trace (snd (test_case_header tq i st))) = started (trace st) /\
  fetches (trace (snd (test_case_header tq i st))) = fetches (trace st) /\
  calls (snd (test_case_header tq i st)) = calls st.
Proof.
  cbv [test_case_header bind console_log emit ret]. cbn [snd trace calls].
  repeat rewrite started_app. repeat rewrite fetches_app.
  cbn [started flat_map announced fetches app]. now rewrite ?app_nil_r.
Qed.

(** The loop over the first queries, then over the others. *)
Lemma for_queries_app w tq done remaining i st :
  for_queries w tq (done ++ remaining) i st =
  match for_queries w tq done i st with
  | (inr _, st1) => for_queries w tq remaining (i + List.length done) st1
  | (inl e, st1) => (inl e, st1)
  end.
Proof.
  revert i st. induction done as [|query done IH]; intros i st.
  - cbn. now rewrite PeanoNat.Nat.add_0_r.
  - cbn [app for_queries List.length]. unfold bind.
    destruct (process_query w tq i query st) as [[e|[]] st1]; [reflexivity|].
    rewrite IH. now rewrite PeanoNat.Nat.add_succ_comm.
Qed.

Lemma for_queries_started w tq done i st st1 :
  for_queries w tq done i st = (inr tt, st1) ->
  started (trace st1) = started (trace st) ++ done.
Proof.
  revert i st. induction done as [|query done IH]; intros i st H.
  - cbn in H. injection H as <-. now rewrite app_nil_r.
  - cbn [for_queries] in H. unfold bind in H.
    pose proof (process_query_run w tq i query st) as P. cbv zeta in P.
    pose proof (runPromptChain_started w query (snd (test_case_header tq i st))) as S.
    destruct (test_case_header_quiet tq i st) as (Q & _).
    destruct (runPromptChain w query (snd (test_case_header tq i st)))
      as [[e|results] st0].
    + rewrite P in H. discriminate H.
    + destruct P as (st2 & P & Ps & _). rewrite P in H.
      rewrite (IH _ _ H), Ps. cbn [snd] in S. rewrite S, Q.
      now rewrite <- app_assoc.
Qed.

Lemma main_header_returns st :
  main_header st = (inr tt, snd (main_header st)).
Proof. reflexivity. Qed.

Lemma main_header_quiet st :
  started (trace (snd (main_header st))) = started (trace st).
Proof.
  cbv [main_header bind console_log emit ret]. cbn [snd trace].
  repeat rewrite started_app.
  rewrite started_other by (vm_compute; reflexivity).
  cbn [started flat_map announced app]. now rewrite ?app_nil_r.
Qed.

Lemma main_catch_run e st :
  fst (main_catch e st) = inr tt /\
  started (trace (snd (main_catch e st))) = started (trace st) /\
  fetches (trace (snd (main_catch e st))) = fetches (trace st) /\
  calls (snd (main_catch e st)) = calls st.
Proof.
  cbv [main_catch bind console_error emit ret]. cbn [fst snd trace calls].
  repeat rewrite started_app. repeat rewrite fetches_app.
  cbn [started flat_map announced fetches app]. now rewrite ?app_nil_r.
Qed.

(** C8 -- in the batch runner, when the chain of one query fails (after
    the queries [done] before it ran to completion), the one [try]/[catch]
    around the loop takes over: [main] ends in the state of the failure
    followed by the lines of the handler.  The chains started are those of
    [done] and of the failing query; none of the queries [rest] after it
    is started and no further request is issued. *)
Theorem batch_aborts_on_failed_query w done query rest st st1 e st2 :
  let tq := done ++ query :: rest in
  Str.eqb (TOGETHER_API_KEY w) PLACEHOLDER_KEY = false ->
  for_queries w tq done 0 (snd (main_header st)) = (inr tt, st1) ->
  runPromptChain w query (snd (test_case_header tq (List.length done) st1))
    = (inl e, st2) ->
  main_on w tq st = (inr tt, snd (main_catch e st2)) /\
  started (trace (snd (main_on w tq st))) = started (trace st) ++ done ++ [query] /\
  fetches (trace (snd (main_on w tq st))) = fetches (trace st2) /\
  calls (snd (main_on w tq st)) = calls st2.
Proof.
  intros tq Hkey Hdone Hfail.
  assert (Hloop : for_queries w tq tq 0 (snd (main_header st)) = (inl e, st2)).
  { unfold tq at 2. rewrite for_queries_app. fold tq. rewrite Hdone.
    cbn [for_queries Nat.add]. unfold bind at 1.
    pose proof (process_query_run w tq (List.length done) query st1) as P.
    cbv zeta in P. rewrite Hfail in P. now rewrite P. }
  assert (Hmain : main_on w tq st = (inr tt, snd (main_catch e st2))).
  { unfold main_on. rewrite Hkey. unfold bind at 1.
    rewrite main_header_returns. unfold try_catch, bind at 1. rewrite Hloop.
    destruct (main_catch_run e st2) as (Hr & _).
    destruct (main_catch e st2) as [r st3]. cbn [fst snd] in *. now subst r. }
  destruct (main_catch_run e st2) as (_ & Hs & Hf & Hc).
  rewrite Hmain. cbn [snd]. repeat split; try assumption.
  rewrite Hs.
  pose proof (runPromptChain_started w query
                (snd (test_case_header tq (List.length done) st1))) as S.
  rewrite Hfail in S. cbn [snd] in S. rewrite S.
  destruct (test_case_header_quiet tq (List.length done) st1) as (Q & _).
  rewrite Q, (for_queries_started _ _ _ _ _ _ Hdone), main_header_quiet.
  now rewrite <- app_assoc.
Qed.

(** The service answers seven calls and is then unreachable: the first
    test query completes, the second fails at stage 3, and the three
    others are never started. *)
Lemma batch_aborts_on_failed_query_witness :
  let w := mock_world (scripted (firstn 7 (five_replies ++ five_replies))) in
  started (trace (snd (main w initial))) = firstn 2 testQueries /\
  List.length (fetches (trace (snd (main w initial)))) = 7 + 1.
Proof.
  intros w.
  pose (done := firstn 1 testQueries).
  pose (query := nth 1 testQueries []).
  pose (rest := skipn 2 testQueries).
  pose (st1 := snd (for_queries w testQueries done 0 (snd (main_header initial)))).
  pose (st2 := snd (runPromptChain w query
                      (snd (test_case_header testQueries (List.length done) st1)))).
  destruct (batch_aborts_on_failed_query w done query rest initial st1
              network_down st2) as (_ & Hs & Hf & _).
  - reflexivity.
  - vm_compute. reflexivity.
  - vm_compute. reflexivity.
  - split.
    + exact Hs.
    + change (main w initial) with (main_on w (done ++ query :: rest) initial).
      rewrite Hf. vm_compute. reflexivity.
Defined.

Lemma response_stage_temperature_higher_witness :
  let w := mock_world (scripted five_replies) in
  let reqs := fetches (trace (snd (runPromptChain w (nth 0 testQueries []) initial))) in
  exists req req5,
    nth_error reqs 3 = Some req /\ nth_error reqs 4 = Some req5 /\
    (body_temperature req < body_temperature req5)%Q.
Proof.
  intros w reqs.
  destruct (response_stage_temperature_higher w (nth 0 testQueries []) initial)
    as (reqs' & F & H).
  change (fetches (trace initial) ++ reqs') with reqs' in F.
  fold reqs in F. subst reqs'.
  assert (E3 : exists req, nth_error reqs 3 = Some req)
    by (vm_compute; eexists; reflexivity).
  assert (E4 : exists req5, nth_error reqs 4 = Some req5)
    by (vm_compute; eexists; reflexivity).
  destruct E3 as [req E3], E4 as [req5 E4].
  exists req, req5. split; [exact E3|]. split; [exact E4|].
  exact (proj1 (H 3 req req5 ltac:(lia) E3 E4)).
Defined.

Lemma stage_order_and_context_witness :
  let w := mock_world (scripted (firstn 2 five_replies)) in
  let query := nth 0 testQueries [] in
  exists outs req,
    nth_error (fetches (trace (snd (runPromptChain w query initial)))) 2 = Some req /\
    2 <= List.length outs /\
    stage_request w query (firstn 2 outs) 2 = Some req.
Proof.
  intros w query.
  destruct (stage_order_and_context w query initial) as (outs & reqs & F & H).
  change (fetches (trace initial) ++ reqs) with reqs in F.
  assert (E : exists req,
               nth_error (fetches (trace (snd (runPromptChain w query initial)))) 2
               = Some req)
    by (vm_compute; eexists; reflexivity).
  destruct E as [req E].
  exists outs, req. split; [exact E|].
  rewrite F in E.
  destruct (H 2 req E) as (Hle & _ & Hreq). split; assumption.
Defined.

(** * Further properties of the program *)

(** ** The category name *)

Lemma split_hd_free sep s : ~ In sep (hd [] (split sep s)).
Proof.
  induction s as [|c s IH]; cbn [split hd]; [intros []|].
  destruct (N.eqb_spec c sep) as [->|Hne]; [intros []|].
  destruct (split sep s) as [|piece pieces] eqn:E.
  - exfalso. exact (split_not_nil _ _ E).
  - cbn [hd] in *. intros [->|Hin]; [now apply Hne | now apply IH].
Qed.

Lemma trim_keeps_units c s : In c (trim s) -> In c s.
Proof.
  intros H. destruct (trim_split s) as (l & r & E & _).
  rewrite E. apply in_or_app. right. apply in_or_app. now left.
Qed.

Lemma trimStart_white_app l s : all_white l -> trimStart (l ++ s) = trimStart s.
Proof.
  intros H. induction H as [|c l Hc _ IH]; [reflexivity|].
  cbn [app trimStart]. now rewrite Hc.
Qed.

Lemma trimStart_fixed s : head_not_white s -> trimStart s = s.
Proof.
  destruct s as [|c s]; [reflexivity|]. intros H.
  cbn [trimStart]. now rewrite (H c s eq_refl).
Qed.

Lemma trimEnd_app_white s r : all_white r -> trimEnd (s ++ r) = trimEnd s.
Proof.
  intros H. unfold trimEnd. rewrite rev_app_distr.
  rewrite trimStart_white_app; [reflexivity|].
  unfold all_white. now apply Forall_rev.
Qed.

Lemma trimEnd_fixed s :
  (forall c s', s = s' ++ [c] -> is_white_space c = false) -> trimEnd s = s.
Proof.
  intros H. unfold trimEnd.
  rewrite trimStart_fixed; [apply rev_involutive|].
  intros c r E. apply (H c (rev r)).
  rewrite <- (rev_involutive s), E. reflexivity.
Qed.

Lemma trim_fixed s : trimmed s -> trim s = s.
Proof.
  intros [Hhead Hlast]. unfold trim.
  rewrite (trimStart_fixed s Hhead). now apply trimEnd_fixed.
Qed.

Lemma trim_padded l s r :
  all_white l -> all_white r -> trimmed s -> trim (l ++ s ++ r) = s.
Proof.
  intros Hl Hr Hs. unfold trim. rewrite trimStart_white_app by exact Hl.
  destruct s as [|c s].
  - cbn [app]. fold (trim r). now apply trim_all_white.
  - rewrite trimStart_fixed.
    + rewrite trimEnd_app_white by exact Hr. apply trimEnd_fixed, Hs.
    + intros c' s' E. cbn [app] in E. injection E as <- _.
      exact (proj1 Hs c s eq_refl).
Qed.

Lemma white_not_colon s : all_white s -> ~ In colon s.
Proof.
  intros H Hin. unfold all_white in H. rewrite Forall_forall in H.
  specialize (H _ Hin). vm_compute in H. discriminate H.
Qed.

(** X1 -- the category name given to stage 4 never holds a colon and has
    no white space at either end, whatever stage 3 returned; taking the
    category name of a category name changes nothing. *)
Theorem categoryName_clean selectedCategory :
  ~ In colon (categoryName selectedCategory) /\
  trimmed (categoryName selectedCategory) /\
  categoryName (categoryName selectedCategory) = categoryName selectedCategory.
Proof.
  assert (Hfree : ~ In colon (categoryName selectedCategory)).
  { intros H. apply trim_keeps_units in H. exact (split_hd_free _ _ H). }
  split; [exact Hfree|]. split; [apply trim_trimmed|].
  unfold categoryName at 1. rewrite split_hd_no_sep by exact Hfree.
  cbn [hd]. apply trim_fixed, trim_trimmed.
Qed.

(** X2 -- an answer of stage 3 in the expected form, a label, a colon and
    a rationale, gives back the label exactly: for a label without colon
    and without white space at its ends, also when white space surrounds
    it before the colon. *)
Theorem categoryName_recovers_label label rationale before after :
  ~ In colon label -> trimmed label -> all_white before -> all_white after ->
  categoryName (before ++ label ++ after ++ colon :: rationale) = label.
Proof.
  intros Hfree Htrim Hb Ha.
  replace (before ++ label ++ after ++ colon :: rationale)
    with ((before ++ label ++ after) ++ colon :: rationale)
    by (now rewrite <- !app_assoc).
  unfold categoryName. rewrite split_hd_first_sep.
  - now apply trim_padded.
  - intros H. apply in_app_or in H. destruct H as [H|H].
    + exact (white_not_colon _ Hb H).
    + apply in_app_or in H. destruct H as [H|H]; [exact (Hfree H)|].
      exact (white_not_colon _ Ha H).
Qed.

Lemma categoryName_recovers_label_witness :
  categoryName (lit "  " ++ lit "Card Services" ++ lit " "
                ++ colon :: lit " the card is blocked: at ATMs")
  = lit "Card Services".
Proof.
  apply categoryName_recovers_label.
  - intros H. vm_compute in H.
    repeat (destruct H as [H|H]; [discriminate H|]). exact H.
  - split; intros c s' E; vm_compute in E.
    + injection E as <- _. reflexivity.
    + apply (f_equal (@rev N)) in E. rewrite rev_app_distr in E.
      cbn in E. injection E as <- _. reflexivity.
  - repeat constructor.
  - repeat constructor.
Defined.

(** ** One call, seen from outside *)

(** X3 -- what a call leaves on the trace: its one request, followed, when
    it fails, by exactly one [console.error] line carrying the message of
    the very error it rethrows; a call that returns prints nothing. *)
Theorem callTogetherAI_reports_failure_once w prompt temperature maxTokens st :
  let out := callTogetherAI w prompt temperature maxTokens st in
  trace (snd out) =
  trace st ++
  EFetch (call_request w prompt temperature maxTokens)
  :: match fst out with
     | inl e => [EConsoleError [lit "Error calling Together AI:"; err_message e]]
     | inr _ => []
     end.
Proof.
  cbv zeta. rewrite callTogetherAI_run. cbv zeta. cbn [fst snd trace].
  reflexivity.
Qed.

(** X4 -- of the choices in a successful answer only the first is read:
    the result of the call is decided by [choices[0].message.content]
    alone, whatever other choices and other fields the body holds. *)
Theorem callTogetherAI_reads_first_choice
    w i prompt temperature maxTokens code fields first others :
  respond w i (call_request w prompt temperature maxTokens)
    = FetchFulfilled (Response true code (inr (JObj fields))) ->
  own_property fields (lit "choices") = Some (JArr (first :: others)) ->
  call_result w i prompt temperature maxTokens =
  match read_path w (Some first) [PName (lit "message"); PName (lit "content")] with
  | inl e => inl e
  | inr v => call_trim w v
  end.
Proof.
  intros Hresp Hchoices. rewrite call_result_respond, Hresp.
  cbn [json_body ok]. unfold read_path, content_path.
  cbn [fold_left get key_text]. rewrite Hchoices.
  reflexivity.
Qed.

Lemma callTogetherAI_reads_first_choice_witness :
  let second := JObj [(lit "message", JObj [(lit "content", JStr (lit "ignored"))])] in
  let first := JObj [(lit "message", JObj [(lit "content", JStr (lit " kept "))])] in
  let body := JObj [(lit "choices", JArr [first; second])] in
  call_result (mock_world (fun _ _ => FetchFulfilled (Response true 200 (inr body))))
    0 (lit "Hello") None None
  = inr (lit "kept").
Proof.
  intros second first body.
  rewrite (callTogetherAI_reads_first_choice
             (mock_world (fun _ _ => FetchFulfilled (Response true 200 (inr body))))
             0 (lit "Hello") None None 200
             [(lit "choices", JArr [first; second])] first [second]
             eq_refl eq_refl).
  reflexivity.
Defined.

(** ** The requests of a chain *)

Lemma chain_requests_well_addressed w query outs :
  Forall (well_addressed w) (chain_requests w query outs).
Proof.
  unfold chain_requests, chain_calls. cbn [map request_of_call].
  repeat constructor; cbn; eauto.
Qed.

Lemma Forall_firstn_of {A} (P : A -> Prop) n (l : list A) :
  Forall P l -> Forall P (firstn n l).
Proof.
  intros H. rewrite Forall_forall in *. intros x Hx.
  apply H. rewrite <- (firstn_skipn n l). apply in_or_app. now left.
Qed.

(** X5 -- a chain always issues the request of stage 1, built from the
    query alone, and between one and five requests in all: five when it
    returns.  The call counter advances by that number. *)
Theorem runPromptChain_request_count w query st :
  exists reqs,
    fetches (trace (snd (runPromptChain w query st))) = fetches (trace st) ++ reqs /\
    hd_error reqs
      = Some (call_request w (prompt1 query) (Some (3 # 10)%Q) (Some 150%N)) /\
    1 <= List.length reqs <= 5 /\
    calls (snd (runPromptChain w query st)) = calls st + List.length reqs /\
    match fst (runPromptChain w query st) with
    | inr _ => List.length reqs = 5
    | inl _ => True
    end.
Proof.
  destruct (runPromptChain_outcome w query st) as (outs & (L & C & R) & F & N).
  exists (firstn (S (List.length outs)) (chain_requests w query outs)).
  split; [exact F|]. split; [reflexivity|].
  rewrite length_firstn, chain_requests_length.
  split; [lia|]. split; [rewrite N; lia|].
  destruct (fst (runPromptChain w query st)); [exact I|].
  destruct R as [_ R]. rewrite R. reflexivity.
Qed.

(** ** The key *)

Lemma str_eqb_refl s : Str.eqb s s = true.
Proof. unfold Str.eqb. destruct (list_eq_dec N.eq_dec s s); congruence. Qed.

Lemma key_unset_placeholder w : key_unset w -> TOGETHER_API_KEY w = PLACEHOLDER_KEY.
Proof. unfold TOGETHER_API_KEY. intros [-> | ->]; reflexivity. Qed.

Lemma key_missing_placeholder w :
  key_missing w -> TOGETHER_API_KEY w = PLACEHOLDER_KEY.
Proof.
  intros [H|H]; [now apply key_unset_placeholder|].
  unfold TOGETHER_API_KEY. rewrite H. reflexivity.
Qed.

(** X6 -- [runPromptChain], called on its own, does not look at the key:
    with the variable unset or empty it still issues its requests, each
    with the placeholder as bearer token. *)
Theorem runPromptChain_sends_placeholder_key w query st :
  key_unset w ->
  exists reqs,
    fetches (trace (snd (runPromptChain w query st))) = fetches (trace st) ++ reqs /\
    reqs <> [] /\
    Forall (fun req =>
              header_Authorization req = lit "Bearer YOUR_TOGETHER_API_KEY_HERE")
      reqs.
Proof.
  intros Hkey.
  destruct (runPromptChain_outcome w query st) as (outs & _ & F & _).
  exists (firstn (S (List.length outs)) (chain_requests w query outs)).
  split; [exact F|]. split; [discriminate|].
  apply Forall_firstn_of.
  eapply Forall_impl; [|apply chain_requests_well_addressed].
  intros req (_ & _ & Hauth & _). rewrite Hauth.
  now rewrite (key_unset_placeholder w Hkey).
Qed.

Lemma runPromptChain_sends_placeholder_key_witness :
  let w := World None (scripted five_replies) (fun _ => lit "{}") (fun _ _ => lit "no") in
  map header_Authorization
    (fetches (trace (snd (runPromptChain w (nth 0 testQueries []) initial))))
  = repeat (lit "Bearer YOUR_TOGETHER_API_KEY_HERE") 5.
Proof.
  intros w.
  destruct (runPromptChain_sends_placeholder_key w (nth 0 testQueries []) initial
              (or_introl eq_refl)) as (reqs & F & _ & H).
  change (fetches (trace initial) ++ reqs) with reqs in F. rewrite F.
  assert (Hlen : List.length reqs = 5) by (rewrite <- F; vm_compute; reflexivity).
  clear F. do 6 (destruct reqs as [|? reqs]; try discriminate Hlen).
  repeat match goal with
         | H : Forall _ (_ :: _) |- _ => inversion_clear H
         end.
  cbn [map repeat]. congruence.
Defined.

(** X7 -- [main] refuses to run without a usable key: when the variable is
    unset, empty or still the placeholder, it writes five lines with
    [console.error] and returns, with no request issued and no chain
    started. *)
Theorem main_refuses_without_key w testQueries st :
  key_missing w ->
  let out := main_on w testQueries st in
  fst out = inr tt /\
  (exists lines,
     List.length lines = 5 /\
     trace (snd out) = trace st ++ map EConsoleError lines) /\
  fetches (trace (snd out)) = fetches (trace st) /\
  started (trace (snd out)) = started (trace st) /\
  calls (snd out) = calls st.
Proof.
  intros Hkey out. subst out. unfold main_on.
  rewrite (key_missing_placeholder w Hkey), str_eqb_refl.
  cbv [bind console_error emit ret]. cbn [fst snd trace calls].
  split; [reflexivity|]. split.
  - eexists [_; _; _; _; _]. split; [reflexivity|].
    rewrite <- !app_assoc. reflexivity.
  - repeat rewrite fetches_app. repeat rewrite started_app.
    cbn [fetches started flat_map announced app]. now rewrite ?app_nil_r.
Qed.

Lemma main_refuses_without_key_witness :
  let w := World (Some PLACEHOLDER_KEY) (scripted five_replies)
             (fun _ => lit "{}") (fun _ _ => lit "no") in
  fst (main w initial) = inr tt /\
  fetches (trace (snd (main w initial))) = [] /\
  List.length (trace (snd (main w initial))) = 5.
Proof.
  intros w.
  destruct (main_refuses_without_key w testQueries initial (or_intror eq_refl))
    as (Hr & (lines & Hlen & Htrace) & Hf & _).
  split; [exact Hr|]. split; [exact Hf|].
  unfold main. rewrite Htrace. cbn [trace initial app].
  now rewrite length_map.
Defined.

(** X8 -- [main] never throws: whatever the service does, an error of a
    chain is caught by the handler, which only prints. *)
Theorem main_never_throws w testQueries st :
  fst (main_on w testQueries st) = inr tt.
Proof.
  unfold main_on.
  destruct (Str.eqb (TOGETHER_API_KEY w) PLACEHOLDER_KEY); [reflexivity|].
  unfold bind at 1. rewrite main_header_returns.
  unfold try_catch, bind at 1.
  destruct (for_queries w testQueries testQueries 0 (snd (main_header st)))
    as [[e|[]] st1]; reflexivity.
Qed.

(** ** The batch, query after query *)

Lemma timeouts_app evs1 evs2 : timeouts (evs1 ++ evs2) = timeouts evs1 ++ timeouts evs2.
Proof. apply flat_map_app. Qed.

Lemma timeouts_call_log r : timeouts (call_log r) = [].
Proof. destruct r; reflexivity. Qed.

Ltac trace_timeouts :=
  cbn [trace snd];
  repeat rewrite timeouts_app;
  cbn [timeouts flat_map app];
  rewrite ?app_nil_r.

Lemma runPromptChain_no_timeouts w query st :
  timeouts (trace (snd (runPromptChain w query st))) = timeouts (trace st).
Proof.
  destruct (runPromptChain w query st) as [r st'] eqn:H. cbn [snd].
  unfold runPromptChain in H.
  cbv [bind console_log emit ret] in H. cbn [calls trace] in H.
  run_call H intent; [injection H as <- <-; trace_timeouts; reflexivity|].
  run_call H categories; [injection H as <- <-; trace_timeouts; reflexivity|].
  run_call H selectedCategory; [injection H as <- <-; trace_timeouts; reflexivity|].
  run_call H details; [injection H as <- <-; trace_timeouts; reflexivity|].
  run_call H response; [injection H as <- <-; trace_timeouts; reflexivity|].
  injection H as <- <-. trace_timeouts. reflexivity.
Qed.

Lemma test_case_header_no_timeouts tq i st :
  timeouts (trace (snd (test_case_header tq i st))) = timeouts (trace st).
Proof.
  cbv [test_case_header bind console_log emit ret]. trace_timeouts. reflexivity.
Qed.

Lemma summary_lines_quiet results :
  timeouts (summary_lines results) = [] /\
  started (summary_lines results) = [] /\
  fetches (summary_lines results) = [].
Proof.
  unfold summary_lines.
  rewrite timeouts_app, started_app, fetches_app.
  cbn [timeouts started fetches flat_map announced app].
  induction (combine stages results) as [|labelled l (IH1 & IH2 & IH3)];
    [repeat split|].
  cbn [flat_map app timeouts started fetches announced].
  repeat split; assumption.
Qed.

Lemma returned_five w query st results st' :
  runPromptChain w query st = (inr results, st') ->
  List.length results = 5 /\ calls st' = calls st + 5.
Proof.
  intros H.
  destruct (runPromptChain_run _ _ _ _ _ H) as (outs & _ & _ & _ & N & -> & L).
  rewrite L in N. split; [exact L | exact N].
Qed.

(** What one iteration writes after a chain that returned. *)
Lemma process_query_trace w tq i query st results st1 :
  runPromptChain w query (snd (test_case_header tq i st)) = (inr results, st1) ->
  process_query w tq i query st =
  (inr tt, State (calls st1) (trace st1 ++ summary_lines results ++ pause_lines tq i)).
Proof.
  intros Hrun.
  destruct (returned_five _ _ _ _ _ Hrun) as [Hlen _].
  do 6 (destruct results as [|? results]; try discriminate Hlen).
  unfold process_query. unfold bind at 1. rewrite test_case_header_returns.
  unfold bind at 1. rewrite Hrun.
  unfold summary_lines, pause_lines.
  destruct (Z.of_nat i <? Z.of_nat (List.length tq) - 1)%Z;
    cbv [bind console_log emit ret forEach stages sleep];
    cbn [calls trace combine flat_map fst snd nth app];
    rewrite <- ?app_assoc; cbn [app]; rewrite ?app_nil_r; reflexivity.
Qed.

Lemma pause_lines_quiet tq i :
  started (pause_lines tq i) = [] /\ fetches (pause_lines tq i) = [].
Proof.
  unfold pause_lines.
  destruct (Z.of_nat i <? Z.of_nat (List.length tq) - 1)%Z; split; reflexivity.
Qed.

Lemma pause_lines_timeouts tq i (rest : list str) :
  i + S (List.length rest) = List.length tq ->
  timeouts (pause_lines tq i) = match rest with [] => [] | _ :: _ => [2000%N] end.
Proof.
  intros H. unfold pause_lines.
  destruct (Z.ltb_spec (Z.of_nat i) (Z.of_nat (List.length tq) - 1)) as [Hlt|Hge];
    destruct rest as [|query rest]; cbn [List.length] in H; try reflexivity; lia.
Qed.

Lemma process_query_step w tq i query st :
  let out := process_query w tq i query st in
  started (trace (snd out)) = started (trace st) ++ [query] /\
  (exists reqs,
     fetches (trace (snd out)) = fetches (trace st) ++ reqs /\
     Forall (well_addressed w) reqs) /\
  match fst out with
  | inl _ => timeouts (trace (snd out)) = timeouts (trace st)
  | inr _ =>
      timeouts (trace (snd out)) = timeouts (trace st) ++ timeouts (pause_lines tq i) /\
      calls (snd out) = calls st + 5
  end.
Proof.
  cbv zeta.
  destruct (test_case_header_quiet tq i st) as (Qs & Qf & Qc).
  pose proof (test_case_header_no_timeouts tq i st) as Qt.
  pose proof (runPromptChain_started w query (snd (test_case_header tq i st))) as Hst.
  pose proof (runPromptChain_no_timeouts w query (snd (test_case_header tq i st))) as T.
  destruct (runPromptChain_outcome w query (snd (test_case_header tq i st)))
    as (outs & _ & F & _).
  assert (Hreqs : Forall (well_addressed w)
                    (firstn (S (List.length outs)) (chain_requests w query outs)))
    by apply Forall_firstn_of, chain_requests_well_addressed.
  pose proof (process_query_run w tq i query st) as P. cbv zeta in P.
  destruct (runPromptChain w query (snd (test_case_header tq i st)))
    as [[e|results] st1] eqn:Hrun; cbn [snd] in Hst, T, F.
  - rewrite P. cbn [fst snd]. rewrite Hst, Qs, T, Qt, F, Qf. eauto.
  - clear P. rewrite (process_query_trace _ _ _ _ _ _ _ Hrun). cbn [fst snd trace calls].
    destruct (summary_lines_quiet results) as (Zt & Zs & Zf).
    destruct (pause_lines_quiet tq i) as (Ps & Pf).
    destruct (returned_five _ _ _ _ _ Hrun) as [_ Hcalls].
    rewrite !started_app, !fetches_app, !timeouts_app.
    rewrite Zt, Zs, Zf, Ps, Pf, Hst, Qs, T, Qt, F, Qf, Hcalls, Qc.
    cbn [app]. rewrite ?app_nil_r.
    split; [reflexivity|]. split; [eexists; split; [reflexivity | exact Hreqs]|].
    split; [reflexivity | lia].
Qed.

Lemma for_queries_batch w tq remaining :
  forall i st,
    i + List.length remaining = List.length tq ->
    let out := for_queries w tq remaining i st in
    exists n,
      n <= List.length remaining /\
      (remaining <> [] -> 1 <= n) /\
      started (trace (snd out)) = started (trace st) ++ firstn n remaining /\
      timeouts (trace (snd out)) = timeouts (trace st) ++ repeat 2000%N (n - 1) /\
      (exists reqs,
         fetches (trace (snd out)) = fetches (trace st) ++ reqs /\
         Forall (well_addressed w) reqs) /\
      (fst out = inr tt ->
         n = List.length remaining /\
         calls (snd out) = calls st + 5 * List.length remaining).
Proof.
  induction remaining as [|query rest IH]; intros i st Hi; cbv zeta.
  - exists 0. cbn. rewrite !app_nil_r.
    repeat split; try lia; try congruence.
    exists []. now rewrite app_nil_r.
  - cbn [for_queries List.length] in *. unfold bind.
    pose proof (process_query_step w tq i query st) as Hstep. cbv zeta in Hstep.
    pose proof (pause_lines_timeouts tq i rest Hi) as Hpause.
    destruct (process_query w tq i query st) as [[e|[]] st2];
      cbn [fst snd] in Hstep |- *;
      destruct Hstep as (Hs & (reqs & Hf & Hw) & Ht).
    + exists 1. cbn [firstn repeat Nat.sub]. rewrite app_nil_r.
      repeat split; try lia; try assumption; try discriminate.
      exists reqs. now split.
    + destruct Ht as [Ht Hc].
      destruct (IH (S i) st2 ltac:(lia))
        as (n & Hn & Hpos & Hs' & Ht' & (reqs' & Hf' & Hw') & Hdone).
      exists (S n). cbn [firstn]. repeat split.
      * lia.
      * lia.
      * rewrite Hs', Hs, <- app_assoc. reflexivity.
      * rewrite Ht', Ht, Hpause, <- app_assoc. f_equal.
        destruct rest as [|q rest].
        -- cbn [List.length] in Hn. assert (n = 0) by lia. subst n. reflexivity.
        -- assert (1 <= n) by (apply Hpos; discriminate).
           destruct n as [|n]; [lia|]. cbn [app Nat.sub repeat].
           now rewrite PeanoNat.Nat.sub_0_r.
      * exists (reqs ++ reqs'). split.
        -- rewrite Hf', Hf, <- app_assoc. reflexivity.
        -- apply Forall_app. now split.
      * destruct (Hdone H) as [-> _]. reflexivity.
      * destruct (Hdone H) as [_ ->]. rewrite Hc. lia.
Qed.

(** X9 -- after a chain that returned, the iteration prints the summary:
    each of the five stage labels followed by the output of that stage, in
    order, every output printed and none missing; then the pause, unless
    the query was the last. *)
Theorem process_query_prints_summary w tq i query st results st1 :
  runPromptChain w query (snd (test_case_header tq i st)) = (inr results, st1) ->
  trace (snd (process_query w tq i query st))
    = trace st1 ++ summary_lines results ++ pause_lines tq i /\
  map fst (combine stages results) = stages /\
  map snd (combine stages results) = results.
Proof.
  intros Hrun. rewrite (process_query_trace _ _ _ _ _ _ _ Hrun). cbn [snd trace].
  split; [reflexivity|].
  destruct (returned_five _ _ _ _ _ Hrun) as [Hlen _].
  do 6 (destruct results as [|? results]; try discriminate Hlen).
  split; reflexivity.
Qed.

Lemma process_query_prints_summary_witness :
  let w := mock_world (scripted five_replies) in
  let query := nth 0 testQueries [] in
  let st1 := snd (runPromptChain w query (snd (test_case_header testQueries 0 initial))) in
  trace (snd (process_query w testQueries 0 query initial))
  = trace st1 ++ summary_lines five_replies ++ pause_lines testQueries 0.
Proof.
  intros w query st1.
  apply (process_query_prints_summary w testQueries 0 query initial five_replies st1).
  vm_compute. reflexivity.
Defined.

Lemma main_on_with_key w tq st :
  Str.eqb (TOGETHER_API_KEY w) PLACEHOLDER_KEY = false ->
  main_on w tq st =
  match for_queries w tq tq 0 (snd (main_header st)) with
  | (inl e, st1) => main_catch e st1
  | (inr _, st1) => (inr tt, State (calls st1) (trace st1 ++ success_lines))
  end.
Proof.
  intros Hkey. unfold main_on. rewrite Hkey.
  unfold bind at 1. rewrite main_header_returns. cbn [snd].
  unfold try_catch, bind at 1.
  destruct (for_queries w tq tq 0 (snd (main_header st))) as [[e|[]] st1];
    [reflexivity|].
  cbv [bind console_log emit ret success_lines]. cbn [calls trace].
  rewrite <- !app_assoc. reflexivity.
Qed.

Lemma main_on_batch w tq st :
  let out := main_on w tq st in
  exists n,
    n <= List.length tq /\
    started (trace (snd out)) = started (trace st) ++ firstn n tq /\
    timeouts (trace (snd out)) = timeouts (trace st) ++ repeat 2000%N (n - 1) /\
    (exists reqs,
       fetches (trace (snd out)) = fetches (trace st) ++ reqs /\
       Forall (well_addressed w) reqs).
Proof.
  cbv zeta.
  destruct (Str.eqb (TOGETHER_API_KEY w) PLACEHOLDER_KEY) eqn:Hkey.
  - exists 0. unfold main_on. rewrite Hkey.
    cbv [bind console_error emit ret]. cbn [snd trace firstn repeat Nat.sub].
    split; [lia|]. split; [|split; [|exists []; split; [|constructor]]].
    + repeat rewrite started_app.
      cbn [started flat_map announced app]. now rewrite ?app_nil_r.
    + repeat rewrite timeouts_app.
      cbn [timeouts flat_map app]. now rewrite ?app_nil_r.
    + repeat rewrite fetches_app. cbn [fetches app]. now rewrite ?app_nil_r.
  - rewrite (main_on_with_key w tq st Hkey).
    destruct (for_queries_batch w tq tq 0 (snd (main_header st)) eq_refl)
      as (n & Hn & _ & Hs & Ht & (reqs & Hf & Hw) & _).
    rewrite main_header_quiet in Hs.
    assert (Ht0 : timeouts (trace (snd (main_header st))) = timeouts (trace st)).
    { cbv [main_header bind console_log emit ret]. trace_timeouts. reflexivity. }
    assert (Hf0 : fetches (trace (snd (main_header st))) = fetches (trace st)).
    { cbv [main_header bind console_log emit ret]. cbn [snd trace].
      repeat rewrite fetches_app. cbn [fetches app]. now rewrite ?app_nil_r. }
    rewrite Ht0 in Ht. rewrite Hf0 in Hf.
    exists n. split; [exact Hn|].
    destruct (for_queries w tq tq 0 (snd (main_header st))) as [[e|[]] st1];
      cbn [snd] in Hs, Ht, Hf.
    + destruct (main_catch_run e st1) as (_ & Cs & Cf & _).
      assert (Ct : timeouts (trace (snd (main_catch e st1))) = timeouts (trace st1)).
      { cbv [main_catch bind console_error emit ret]. trace_timeouts. reflexivity. }
      split; [now rewrite Cs|]. split; [now rewrite Ct|].
      exists reqs. split; [now rewrite Cf | exact Hw].
    + cbn [snd trace]. rewrite started_app, timeouts_app, fetches_app.
      change (started success_lines) with (@nil str).
      change (timeouts success_lines) with (@nil N).
      change (fetches success_lines) with (@nil request).
      rewrite !app_nil_r. eauto.
Qed.

(** X10 -- in every execution of [main] the chains started are those of
    the first [n] queries of the list, in the order of the list, and the
    pauses are [n - 1] pauses of 2000 ms: one between successive chains,
    none after the last chain started. *)
Theorem main_starts_in_order_with_pauses w testQueries st :
  exists n,
    n <= List.length testQueries /\
    started (trace (snd (main_on w testQueries st)))
      = started (trace st) ++ firstn n testQueries /\
    timeouts (trace (snd (main_on w testQueries st)))
      = timeouts (trace st) ++ repeat 2000%N (n - 1).
Proof.
  destruct (main_on_batch w testQueries st) as (n & Hn & Hs & Ht & _).
  exists n. auto.
Qed.

(** X11 -- every request [main] issues, for whatever query and stage, is a
    POST to the one completions endpoint, with the configured key as
    bearer token, the JSON content type, the one model, a single message
    of role user, top_p 0.9 and the two stop tokens. *)
Theorem main_requests_well_addressed w testQueries st :
  exists reqs,
    fetches (trace (snd (main_on w testQueries st))) = fetches (trace st) ++ reqs /\
    Forall (well_addressed w) reqs.
Proof.
  destruct (main_on_batch w testQueries st) as (n & _ & _ & _ & H). exact H.
Qed.

(** ** A service that always answers *)

Lemma answers_text_call w i prompt temperature maxTokens :
  answers_text w -> exists s, call_result w i prompt temperature maxTokens = inr s.
Proof.
  intros H.
  destruct (H i (call_request w prompt temperature maxTokens))
    as (resp & data & generated & Hresp & Hok & Hbody & Hpath).
  rewrite call_result_respond, Hresp, Hbody, Hok, Hpath. cbn [call_trim]. eauto.
Qed.

Lemma answers_text_returns w query st :
  answers_text w -> exists results, fst (runPromptChain w query st) = inr results.
Proof.
  intros H.
  destruct (runPromptChain_outcome w query st) as (outs & (L & C & R) & _).
  destruct (fst (runPromptChain w query st)) as [e|results]; [|eauto].
  exfalso. destruct R as [Hlt R]. unfold stage_result in R.
  destruct (nth_error (chain_calls query outs) (List.length outs))
    as [[[p t] m]|]; [|discriminate R].
  destruct (answers_text_call w (calls st + List.length outs) p (Some t) (Some m) H)
    as [s Hs].
  rewrite Hs in R. discriminate R.
Qed.

Lemma for_queries_returns w tq remaining :
  answers_text w ->
  forall i st, fst (for_queries w tq remaining i st) = inr tt.
Proof.
  intros H. induction remaining as [|query rest IH]; intros i st; [reflexivity|].
  cbn [for_queries]. unfold bind.
  destruct (answers_text_returns w query (snd (test_case_header tq i st)) H)
    as [results Hres].
  destruct (runPromptChain w query (snd (test_case_header tq i st)))
    as [r st1] eqn:Hrun.
  cbn [fst] in Hres. subst r.
  rewrite (process_query_trace _ _ _ _ _ _ _ Hrun). apply IH.
Qed.

(** X12 -- with a usable key and a service that answers every request
    with a generated text, [main] runs the whole batch: every query of the
    list has its chain started, in order; five requests are issued per
    query; a pause separates successive queries; and the trace ends with
    the three lines of success, the handler never entered. *)
Theorem main_completes_when_service_answers w testQueries st :
  answers_text w ->
  Str.eqb (TOGETHER_API_KEY w) PLACEHOLDER_KEY = false ->
  let out := main_on w testQueries st in
  started (trace (snd out)) = started (trace st) ++ testQueries /\
  calls (snd out) = calls st + 5 * List.length testQueries /\
  timeouts (trace (snd out))
    = timeouts (trace st) ++ repeat 2000%N (List.length testQueries - 1) /\
  exists before, trace (snd out) = before ++ success_lines.
Proof.
  intros Hanswers Hkey out. subst out.
  rewrite (main_on_with_key w testQueries st Hkey).
  pose proof (for_queries_returns w testQueries testQueries Hanswers 0
                (snd (main_header st))) as Hret.
  destruct (for_queries_batch w testQueries testQueries 0 (snd (main_header st)) eq_refl)
    as (n & _ & _ & Hs & Ht & _ & Hdone).
  destruct (Hdone Hret) as [-> Hcalls].
  rewrite main_header_quiet in Hs.
  assert (Ht0 : timeouts (trace (snd (main_header st))) = timeouts (trace st)).
  { cbv [main_header bind console_log emit ret]. trace_timeouts. reflexivity. }
  rewrite Ht0 in Ht. rewrite firstn_all in Hs.
  destruct (for_queries w testQueries testQueries 0 (snd (main_header st)))
    as [[e|[]] st1]; [discriminate Hret|].
  cbn [snd trace calls] in *.
  rewrite started_app, timeouts_app.
  change (started success_lines) with (@nil str).
  change (timeouts success_lines) with (@nil N).
  rewrite !app_nil_r. repeat split; try assumption. eauto.
Qed.

Lemma main_completes_when_service_answers_witness :
  let w := mock_world (fun _ _ => success (lit "Billing Issue: a fee")) in
  started (trace (snd (main w initial))) = testQueries /\
  calls (snd (main w initial)) = 25 /\
  timeouts (trace (snd (main w initial))) = [2000; 2000; 2000; 2000]%N.
Proof.
  intros w.
  destruct (main_completes_when_service_answers w testQueries initial)
    as (Hs & Hc & Ht & _).
  - intros i req.
    exists (Response true 200 (inr (completion_body (lit "Billing Issue: a fee")))),
           (completion_body (lit "Billing Issue: a fee")), (lit "Billing Issue: a fee").
    repeat split; reflexivity.
  - reflexivity.
  - split; [exact Hs|]. split; [exact Hc | exact Ht].
Defined.

(** ** What a chain prints and sends *)

Lemma console_errors_app evs1 evs2 :
  console_errors (evs1 ++ evs2) = console_errors evs1 ++ console_errors evs2.
Proof. apply flat_map_app. Qed.

Ltac trace_errors :=
  cbn [trace snd fst];
  split;
  [ repeat rewrite console_errors_app;
    cbn [console_errors flat_map app];
    rewrite ?app_nil_r; reflexivity
  | try exact I; eexists; eexists; reflexivity ].

(** X13 -- a chain that fails writes exactly one [console.error] line,
    with the message of the error it throws, and that line, right after
    the failed request, is the last thing it does; a chain that returns
    writes none. *)
Theorem runPromptChain_reports_failure_once w query st :
  let out := runPromptChain w query st in
  console_errors (trace (snd out)) =
    console_errors (trace st) ++
    match fst out with
    | inl e => [[lit "Error calling Together AI:"; err_message e]]
    | inr _ => []
    end /\
  match fst out with
  | inl e =>
      exists before req,
        trace (snd out) =
        before ++ [EFetch req;
                   EConsoleError [lit "Error calling Together AI:"; err_message e]]
  | inr _ => True
  end.
Proof.
  cbv zeta.
  destruct (runPromptChain w query st) as [r st'] eqn:H.
  unfold runPromptChain in H.
  cbv [bind console_log emit ret] in H. cbn [calls trace] in H.
  run_call H intent; [injection H as <- <-; trace_errors|].
  run_call H categories; [injection H as <- <-; trace_errors|].
  run_call H selectedCategory; [injection H as <- <-; trace_errors|].
  run_call H details; [injection H as <- <-; trace_errors|].
  run_call H response; [injection H as <- <-; trace_errors|].
  injection H as <- <-. trace_errors.
Qed.

(** X14 -- in every execution the requests of a chain carry the token
    bounds of their stages, 150, 250, 150, 200 and 300 in this order, and
    as only message the prompt of the stage under the role user; the
    defaults of [callTogetherAI] are never relied on. *)
Theorem runPromptChain_token_bounds w query st :
  exists reqs,
    fetches (trace (snd (runPromptChain w query st))) = fetches (trace st) ++ reqs /\
    map body_max_tokens reqs
      = firstn (List.length reqs) [150; 250; 150; 200; 300]%N /\
    Forall (fun req => exists prompt,
              body_messages req = [Message (lit "user") prompt]) reqs.
Proof.
  destruct (runPromptChain_outcome w query st) as (outs & _ & F & _).
  exists (firstn (S (List.length outs)) (chain_requests w query outs)).
  split; [exact F|]. split.
  - rewrite length_firstn, chain_requests_length, <- firstn_map.
    unfold chain_requests, chain_calls. cbn [map request_of_call].
    change (map body_max_tokens _) with [150; 250; 150; 200; 300]%N.
    destruct (List.length outs) as [|[|[|[|[|k]]]]]; reflexivity.
  - apply Forall_firstn_of.
    eapply Forall_impl; [|apply chain_requests_well_addressed].
    intros req H. exact (proj1 (proj2 (proj2 (proj2 (proj2 (proj2 H)))))).
Qed.

(** X15 -- the one request of a call carries the prompt unchanged and the
    generation parameters given; where the caller leaves them out, the
    temperature is 0.3 and the token bound 500. *)
Theorem callTogetherAI_request_parameters w prompt temperature maxTokens st :
  exists req,
    fetches (trace (snd (callTogetherAI w prompt temperature maxTokens st)))
      = fetches (trace st) ++ [req] /\
    body_messages req = [Message (lit "user") prompt] /\
    body_temperature req
      = match temperature with Some t => t | None => (3 # 10)%Q end /\
    body_max_tokens req
      = match maxTokens with Some m => m | None => 500%N end.
Proof.
  exists (call_request w prompt temperature maxTokens).
  rewrite callTogetherAI_run. cbv zeta. cbn [snd trace].
  rewrite fetches_app. cbn [fetches]. rewrite fetches_call_log.
  repeat split; destruct temperature, maxTokens; reflexivity.
Qed.
